(** * azul-plugin-dotnet-deob: orchestration and failure classification

    A shallow embedding of [azul_plugin_dotnet_deob/deob/deobfuscators.py]
    and of [AzulPluginDotnetDeob.execute] in [azul_plugin_dotnet_deob/main.py],
    followed by the properties of the pipeline that the specification states.

    Python values are modelled as follows.  [str] is [string]; a [list] is a
    [list]; [None]-or-value is [option]; a raised exception is the [Raise]
    side of [Py.result].  Everything the code obtains from the operating
    system (sub-processes, the file system, the PE parser, the temporary
    directory) is a field of the class [Host], read from and written to an
    abstract [World]; the regular-expression engine is the class [Regex]. *)

From Stdlib Require Import List String Ascii ZArith Bool Lia.
Import ListNotations.
Open Scope string_scope.
Open Scope list_scope.

(* ================================================================== *)
(** ** Python control flow: results, exceptions, a state monad *)

Module Py.

(** The exception classes that the two modules can meet.  The first four
    are [OSError] and three of its subclasses. *)
Inductive exception : Type :=
| OSError
| FileNotFoundError
| NotADirectoryError
| PermissionError
| TimeoutExpired
| TypeError
| UnicodeDecodeError
| PEFormatError.

(** [isinstance(e, OSError)]. *)
Definition is_OSError (e : exception) : bool :=
  match e with
  | OSError | FileNotFoundError | NotADirectoryError | PermissionError => true
  | _ => false
  end.

(** [isinstance(e, subprocess.TimeoutExpired)]. *)
Definition is_TimeoutExpired (e : exception) : bool :=
  match e with TimeoutExpired => true | _ => false end.

(** [isinstance(e, pefile.PEFormatError)]. *)
Definition is_PEFormatError (e : exception) : bool :=
  match e with PEFormatError => true | _ => false end.

Inductive result (A : Type) : Type :=
| Return (a : A)
| Raise (e : exception).
Arguments Return {A} a.
Arguments Raise {A} e.

(** A computation over a state [S] that returns or raises. *)
Definition M (S A : Type) : Type := S -> result A * S.

Definition ret {S A} (a : A) : M S A := fun s => (Return a, s).

Definition raise {S A} (e : exception) : M S A := fun s => (Raise e, s).

Definition bind {S A B} (m : M S A) (k : A -> M S B) : M S B :=
  fun s =>
    match m s with
    | (Return a, s') => k a s'
    | (Raise e, s') => (Raise e, s')
    end.

(** [try: body  except C1: h1  except C2: h2 ...]: the first clause whose
    class test accepts the exception handles it; otherwise it propagates. *)
Definition try_except {S A} (body : M S A)
    (handlers : list ((exception -> bool) * M S A)) : M S A :=
  fun s =>
    match body s with
    | (Return a, s') => (Return a, s')
    | (Raise e, s') =>
        match find (fun h => fst h e) handlers with
        | Some h => snd h s'
        | None => (Raise e, s')
        end
    end.

(** A read-only operation of the state that may raise. *)
Definition reading {S A} (f : S -> result A) : M S A := fun s => (f s, s).

(** Unary [+] applied to a [str]: always [TypeError]. *)
Definition unary_plus_str {S A} (operand : string) : M S A := raise TypeError.

End Py.

Notation "x <- m ;; k" := (Py.bind m (fun x => k))
  (at level 61, m at next level, right associativity).

(* ================================================================== *)
(** ** [str] helpers and [os.path] (POSIX flavour: the wrapped tools run
       under mono and dotnet) *)

Module Str.

Fixpoint take (n : nat) (s : string) : string :=
  match n, s with
  | S n', String c s' => String c (take n' s')
  | _, _ => EmptyString
  end.

Fixpoint drop (n : nat) (s : string) : string :=
  match n, s with
  | S n', String _ s' => drop n' s'
  | _, _ => s
  end.

Fixpoint rfind_from (c : ascii) (s : string) (i found : Z) : Z :=
  match s with
  | EmptyString => found
  | String x s' => rfind_from c s' (i + 1) (if Ascii.eqb x c then i else found)
  end.

(** [s.rfind(c)] for a one-character [c]: the highest index, or [-1]. *)
Definition rfind (c : ascii) (s : string) : Z := rfind_from c s 0 (-1).

Fixpoint last_char (s : string) : option ascii :=
  match s with
  | EmptyString => None
  | String c EmptyString => Some c
  | String _ s' => last_char s'
  end.

(** [s.endswith(c)] for a one-character [c]. *)
Definition endswith (c : ascii) (s : string) : bool :=
  match last_char s with
  | Some x => Ascii.eqb x c
  | None => false
  end.

(** [s.startswith(c)] for a one-character [c]. *)
Definition startswith (c : ascii) (s : string) : bool :=
  match s with
  | String x _ => Ascii.eqb x c
  | EmptyString => false
  end.

End Str.

Module PosixPath.

Definition sep : ascii := "/"%char.
Definition extsep : ascii := "."%char.

(** [os.path.basename(p)]: [p[p.rfind('/') + 1:]]. *)
Definition basename (p : string) : string :=
  Str.drop (Z.to_nat (Str.rfind sep p + 1)) p.

(** The [while filenameIndex < dotIndex] loop of [genericpath._splitext]:
    [true] when a character other than the dot is met before [dotIndex]
    (the loop returns the split), [false] when only leading dots are. *)
Fixpoint meets_non_dot (p : string) (filenameIndex remaining : nat) : bool :=
  match remaining with
  | O => false
  | S remaining' =>
      match String.get filenameIndex p with
      | Some c =>
          if Ascii.eqb c extsep
          then meets_non_dot p (S filenameIndex) remaining'
          else true
      | None => true
      end
  end.

(** [os.path.splitext(p)]. *)
Definition splitext (p : string) : string * string :=
  let sepIndex := Str.rfind sep p in
  let dotIndex := Str.rfind extsep p in
  if (dotIndex >? sepIndex)%Z then
    let filenameIndex := (sepIndex + 1)%Z in
    if meets_non_dot p (Z.to_nat filenameIndex)
         (Z.to_nat (dotIndex - filenameIndex))
    then (Str.take (Z.to_nat dotIndex) p, Str.drop (Z.to_nat dotIndex) p)
    else (p, EmptyString)
  else (p, EmptyString).

Definition join_step (path b : string) : string :=
  if Str.startswith sep b then b
  else if (String.eqb path EmptyString || Str.endswith sep path)%bool then (path ++ b)%string
  else (path ++ "/" ++ b)%string.

(** [os.path.join(a, *p)]. *)
Definition join (a : string) (p : list string) : string :=
  fold_left join_step p a.

End PosixPath.

(* ================================================================== *)
(** ** The fragment of Python's [re] syntax that the patterns may use *)

Module Re.

(** Literal characters (written plainly or escaped with a backslash), the
    dot, and the two anchors.  Quantifiers, groups, classes and alternation
    are outside the fragment; none of the patterns of the repository uses
    them unescaped. *)
Inductive token : Type :=
| Lit (c : ascii)
| AnyChar
| Bol
| Eol.

Definition is_alnum (c : ascii) : bool :=
  let n := nat_of_ascii c in
  ((48 <=? n) && (n <=? 57) || (65 <=? n) && (n <=? 90)
   || (97 <=? n) && (n <=? 122))%nat%bool.

Definition is_operator (c : ascii) : bool :=
  existsb (Ascii.eqb c)
    ["*"; "+"; "?"; "{"; "}"; "["; "]"; "("; ")"; "|"]%char.

(** [escaped] is [true] right after a backslash.  A backslash followed by
    a letter or a digit is a class, a back-reference or an error in Python:
    not in the fragment. *)
Fixpoint parse (escaped : bool) (p : list ascii) : option (list token) :=
  match p with
  | [] => if escaped then None else Some []
  | c :: p' =>
      if escaped then
        if is_alnum c then None
        else option_map (cons (Lit c)) (parse false p')
      else if Ascii.eqb c "\"%char then parse true p'
      else if Ascii.eqb c "."%char then option_map (cons AnyChar) (parse false p')
      else if Ascii.eqb c "^"%char then option_map (cons Bol) (parse false p')
      else if Ascii.eqb c "$"%char then option_map (cons Eol) (parse false p')
      else if is_operator c then None
      else option_map (cons (Lit c)) (parse false p')
  end.

Definition compile (pattern : string) : option (list token) :=
  parse false (list_ascii_of_string pattern).

Definition newline : ascii := ascii_of_nat 10.

(** Does the token sequence match a prefix of [s]?  [at_start] says whether
    [s] is the whole subject (the position is 0).  No flag is set: the dot
    excludes the newline, [^] holds at position 0 only, [$] at the end or
    just before a final newline. *)
Fixpoint match_here (ts : list token) (at_start : bool) (s : list ascii)
  : bool :=
  match ts with
  | [] => true
  | Lit c :: ts' =>
      match s with
      | x :: s' => Ascii.eqb x c && match_here ts' false s'
      | [] => false
      end
  | AnyChar :: ts' =>
      match s with
      | x :: s' => negb (Ascii.eqb x newline) && match_here ts' false s'
      | [] => false
      end
  | Bol :: ts' => at_start && match_here ts' at_start s
  | Eol :: ts' =>
      match s with
      | [] => match_here ts' at_start s
      | [x] => Ascii.eqb x newline && match_here ts' at_start s
      | _ => false
      end
  end.

(** [regex.search]: try every position, leftmost first. *)
Fixpoint search_from (ts : list token) (at_start : bool) (s : list ascii)
  : bool :=
  match_here ts at_start s
  || match s with
     | [] => false
     | _ :: s' => search_from ts false s'
     end.

(** [re.compile(pattern).search(msg) is not None], on the fragment. *)
Definition search (pattern msg : string) : bool :=
  match compile pattern with
  | Some ts => search_from ts true (list_ascii_of_string msg)
  | None => false
  end.

Definition anchored_at_start (ts : list token) : bool :=
  existsb (fun t => match t with Bol => true | _ => false end) ts.

End Re.

(* ================================================================== *)
(** ** What the code obtains from its environment *)

(** [subprocess.CompletedProcess], with the captured text. *)
Record CompletedProcess : Type := {
  returncode : Z;
  stdout : string;
  stderr : string
}.

(** The operating system and the libraries that touch it.  [World] is the
    state they read and write (processes, files). *)
Class Host : Type := {
  World : Type;
  (** [subprocess.run(args, input, stdout=PIPE, stderr=PIPE, timeout,
      encoding="utf8")]: raises [OSError] when the process cannot be
      started, [TimeoutExpired] when it outlives [timeout] seconds. *)
  subprocess_run :
    list string -> option string -> Z -> Py.M World CompletedProcess;
  (** [os.path.exists]. *)
  os_path_exists : string -> World -> bool;
  (** [os.listdir]. *)
  os_listdir : string -> World -> Py.result (list string);
  (** The text of a list of names inside an f-string. *)
  format_list : list string -> string;
  (** [os.path.dirname(os.path.realpath(__file__))] of [deobfuscators.py]. *)
  module_dir : string;
  (** [pefile.PE(path, fast_load=True)]: the [VirtualAddress] of each entry
      of [OPTIONAL_HEADER.DATA_DIRECTORY], or [PEFormatError]. *)
  pefile_PE : string -> World -> Py.result (list Z);
  (** [tempfile.TemporaryDirectory()]: creation and removal. *)
  mkdtemp : World -> string * World;
  rmtree : string -> World -> World;
  (** [shutil.copy(src, dst)]. *)
  shutil_copy : string -> string -> Py.M World unit;
  (** [open(path, "r+b")]: raises when the file cannot be opened. *)
  open_rb : string -> World -> Py.result unit
}.

(** [re.compile(pattern).search(msg) is not None]. *)
Class Regex : Type := {
  re_search : string -> string -> bool
}.

(** The engine restricted to the fragment of [Re]. *)
Definition fragment_regex : Regex := {| re_search := Re.search |}.

(* ================================================================== *)
(** ** deob/deobfuscators.py *)

Inductive DeobFailTypes : Type :=
| NotValidDotnetFile
| DotnetFileContentLengthMismatch.

Record ExceptionMapping : Type := {
  regex_pattern : string;
  fail_type : DeobFailTypes
}.

(** What a concrete [deobfuscate] hands to [_deobfuscate]. *)
Record Invocation : Type := {
  commandList : list string;
  expected_out_file_loc : string;
  stdin : option string
}.

(** The class [Deobfuscator].  A subclass fixes the four attributes and
    overrides [deobfuscate]; every override of the repository computes an
    invocation from the path of its executable and the input path and
    passes it to [_deobfuscate], which is what [invocation] records. *)
Record Deobfuscator : Type := {
  key : string;
  display_name : string;
  rel_path_to_exe : string;
  regex_exception_mappings : list ExceptionMapping;
  invocation : string -> string -> Invocation
}.

(** The pair [(file path | None, error | None)] that [deobfuscate] returns. *)
Definition DeobResult : Type := (option string * option string)%type.

Section Deobfuscators.
Context {H : Host}.

Definition _get_path_to_cmd (self : Deobfuscator) : string :=
  PosixPath.join module_dir ["bin"; rel_path_to_exe self].

(** [Deobfuscator._deobfuscate].  The statement after the assignment of
    [err_msg] begins with [+]: it is an expression statement that applies
    unary plus to the second f-string, whose evaluation calls [os.listdir]
    first.  The [return None, err_msg] that follows it is written here as
    the source has it. *)
Definition _deobfuscate (commandList : list string)
    (expected_out_file_loc : string) (stdin : option string)
  : Py.M World DeobResult :=
  Py.try_except
    (res <- subprocess_run commandList stdin 60 ;;
     if negb (returncode res =? 0)%Z then
       Py.ret
         (None,
          Some ("An unexpected error occurred when deobfuscating. stderr "
                ++ stderr res ++ " stdout: " ++ stdout res ++ ".")%string)
     else fun w =>
       if os_path_exists expected_out_file_loc w then
         Py.ret (Some expected_out_file_loc, None) w
       else
         let err_msg :=
           ("Failed to produce the expected output file "
            ++ expected_out_file_loc ++ " contents of the out")%string in
         (names <-
            Py.reading (os_listdir (PosixPath.basename expected_out_file_loc)) ;;
          _ <- Py.unary_plus_str (A := unit)
                 (" directory are " ++ format_list names ++ ".")%string ;;
          Py.ret (None, Some err_msg)) w)
    [ (Py.is_OSError,
       Py.ret (None, Some "OSError occured while deobfuscating."));
      (Py.is_TimeoutExpired,
       Py.ret (None, Some "Timed out while deobfuscating.")) ].

(** The method [deobfuscate] of a concrete subclass. *)
Definition deobfuscate (self : Deobfuscator) (in_file_path : string)
  : Py.M World DeobResult :=
  let i := invocation self (_get_path_to_cmd self) in_file_path in
  _deobfuscate (commandList i) (expected_out_file_loc i) (stdin i).

End Deobfuscators.

Definition De4dotCexDeobfuscator : Deobfuscator := {|
  key := "de4dotcex";
  display_name := "de4dot-cex";
  rel_path_to_exe := "mono/de4dot-cex/de4dot-x64.exe";
  regex_exception_mappings :=
    [ {| regex_pattern :=
           "Format of the executable \(\.exe\) or library \(\.dll\) is invalid\.";
         fail_type := NotValidDotnetFile |} ];
  invocation := fun path_to_cmd in_file_path =>
    let expected_out_file_loc := (in_file_path ++ "deob-cex")%string in
    {| commandList :=
         ["mono"; path_to_cmd; "-f"; in_file_path; "-o"; expected_out_file_loc];
       expected_out_file_loc := expected_out_file_loc;
       stdin := None |}
|}.

Definition ConfuserExStaticStringDecryptorDeobfuscator : Deobfuscator := {|
  key := "ConfuserExSSD";
  display_name := "ConfuserEx-Static-String-Decryptor";
  rel_path_to_exe :=
    "mono/ConfuserEx_Static_String_decryptor/ConfuserEx String Decryptor.exe";
  regex_exception_mappings :=
    [ {| regex_pattern :=
           "Format of the executable \(\.exe\) or library \(\.dll\) is invalid\.";
         fail_type := NotValidDotnetFile |};
      {| regex_pattern := "There's not enough bytes left to read";
         fail_type := DotnetFileContentLengthMismatch |} ];
  invocation := fun path_to_cmd in_file_path =>
    let expected_out_file_loc := (in_file_path ++ "Cleaned.exe")%string in
    {| commandList := ["mono"; path_to_cmd];
       expected_out_file_loc := expected_out_file_loc;
       stdin := Some in_file_path |}
|}.

Definition UnscramblerDeobfuscator : Deobfuscator := {|
  key := "unscrambler";
  display_name := "unscrambler";
  rel_path_to_exe := "dotnet/Unscrambler/Unscrambler.dll";
  regex_exception_mappings :=
    [ {| regex_pattern :=
           "PE image does not contain a \.NET metadata directory";
         fail_type := NotValidDotnetFile |};
      {| regex_pattern :=
           "Specified argument was out of the range of valid values\. \(Parameter \'fileOffset\'\)";
         fail_type := DotnetFileContentLengthMismatch |} ];
  invocation := fun path_to_cmd in_file_path =>
    let (prefix, postfix) := PosixPath.splitext in_file_path in
    let expected_out_file_loc := (prefix ++ "_unscrambled" ++ postfix)%string in
    {| commandList := ["dotnet"; path_to_cmd; in_file_path];
       expected_out_file_loc := expected_out_file_loc;
       stdin := Some (String Re.newline EmptyString) |}
|}.

Definition AVAILABLE_DEOBFUSCATORS : list Deobfuscator :=
  [ UnscramblerDeobfuscator;
    ConfuserExStaticStringDecryptorDeobfuscator;
    De4dotCexDeobfuscator ].

(* ================================================================== *)
(** ** main.py: [AzulPluginDotnetDeob.execute] *)

(** One call of [deob.deobfuscate(newest_file_path)] at line 78, with what
    it returned or raised.  The list of calls of a run is history kept
    beside the program state, so that statements can speak of which adapter
    ran, on which path and in which order; no code reads it. *)
Record Call : Type := {
  call_tool : Deobfuscator;
  call_input : string;
  call_result : Py.result DeobResult
}.

(** What [execute] leaves behind, by the statement that ends it. *)
Inductive Outcome : Type :=
| OptOut (text : string)
    (** [return State(State.Label.OPT_OUT, ...)] *)
| ErrorException (failure_name : string)
    (** [return State(State.Label.ERROR_EXCEPTION, ...)]; the message is the
        traceback *)
| ChildAdded (deobfuscated_by : string) (data_file : string)
    (** [self.add_child_with_data_file({"action": "deobfuscated",
        "deobfuscated_by": ...}, data_file=f)], then the end of the body *)
| Malformed (reason : string)
    (** [self.is_malformed(...)], then a bare [return] *)
| CompletedEmpty (failure_name message : string).
    (** [return State(State.Label.COMPLETED_EMPTY, ...)] *)

(** [key in keys]. *)
Definition contains (keys : list string) (key : string) : bool :=
  existsb (String.eqb key) keys.

Section Main.
Context {H : Host} {R : Regex}.

Record Run : Type := {
  world : World;
  calls : list Call
}.

Definition in_world {A} (m : Py.M World A) : Py.M Run A :=
  fun r =>
    let (a, w) := m (world r) in
    (a, {| world := w; calls := calls r |}).

(** [deob.deobfuscate(in_file_path)], recorded. *)
Definition call_deobfuscate (deob : Deobfuscator) (in_file_path : string)
  : Py.M Run DeobResult :=
  fun r =>
    let (a, w) := deobfuscate deob in_file_path (world r) in
    (a, {| world := w;
           calls := calls r ++ [ {| call_tool := deob;
                                    call_input := in_file_path;
                                    call_result := a |} ] |}).

(** The local variables that the [for] loop of lines 74-84 updates. *)
Record Locals : Type := {
  newest_file_path : string;
  successful_deobs : list string;
  failed_deobs : list (Deobfuscator * string)
}.

(** The body of [for deob in deobs.AVAILABLE_DEOBFUSCATORS] (the warning
    that is logged for a failure has no effect on the result and is left
    out).  [error] is concatenated to a [str]: [None] there would be a
    [TypeError]. *)
Definition loop_body (cfg_deobfuscators : list string) (deob : Deobfuscator)
    (l : Locals) : Py.M Run Locals :=
  if negb (contains cfg_deobfuscators (key deob)) then Py.ret l
  else
    r <- call_deobfuscate deob (newest_file_path l) ;;
    match r with
    | (None, error) =>
        match error with
        | Some error =>
            Py.ret
              {| newest_file_path := newest_file_path l;
                 successful_deobs := successful_deobs l;
                 failed_deobs :=
                   failed_deobs l
                   ++ [ (deob,
                         ("Deobfuscator " ++ display_name deob
                          ++ " failed with error: " ++ error)%string) ] |}
        | None => Py.raise Py.TypeError
        end
    | (Some result_file_path, _) =>
        Py.ret
          {| newest_file_path := result_file_path;
             successful_deobs := successful_deobs l ++ [display_name deob];
             failed_deobs := failed_deobs l |}
    end.

Fixpoint for_deob_in (available : list Deobfuscator)
    (cfg_deobfuscators : list string) (l : Locals) : Py.M Run Locals :=
  match available with
  | [] => Py.ret l
  | deob :: rest =>
      l' <- loop_body cfg_deobfuscators deob l ;;
      for_deob_in rest cfg_deobfuscators l'
  end.

(** [for mapping in deob.regex_exception_mappings] of lines 96-101: the
    first mapping whose pattern is found in [msg] assigns [error_type] and
    breaks; when none is found [error_type] keeps its value. *)
Fixpoint for_mapping_in (mappings : list ExceptionMapping) (msg : string)
    (error_type : option DeobFailTypes) : option DeobFailTypes :=
  match mappings with
  | [] => error_type
  | mapping :: rest =>
      if re_search (regex_pattern mapping) msg
      then Some (fail_type mapping)
      else for_mapping_in rest msg error_type
  end.

(** [error_type = None; for deob, msg in failed_deobs: ...] of lines 94-101. *)
Definition classify_failures (failed_deobs : list (Deobfuscator * string))
  : option DeobFailTypes :=
  fold_left
    (fun error_type '(deob, msg) =>
       for_mapping_in (regex_exception_mappings deob) msg error_type)
    failed_deobs None.

(** Lines 103-114. *)
Definition outcome_of_error_type (error_type : option DeobFailTypes)
  : Outcome :=
  match error_type with
  | Some NotValidDotnetFile =>
      OptOut "Deobfuscators detect file as not a valid dotnet file."
  | Some DotnetFileContentLengthMismatch =>
      Malformed "Dotnetfile is shorter than the header specifies."
  | None =>
      CompletedEmpty "no-deobfuscation-processed"
        "Could not run any of the deobfuscators."
  end.

(** Lines 86-114, from the locals that the loop leaves. *)
Definition conclude (l : Locals) : Py.M Run Outcome :=
  if (0 <? List.length (successful_deobs l))%nat then
    _ <- in_world (Py.reading (open_rb (newest_file_path l))) ;;
    Py.ret
      (ChildAdded (String.concat "," (successful_deobs l))
         (newest_file_path l))
  else Py.ret (outcome_of_error_type (classify_failures (failed_deobs l))).

Definition initial_locals (src_file_path : string) : Locals :=
  {| newest_file_path := src_file_path;
     successful_deobs := [];
     failed_deobs := [] |}.

(** Lines 66-114 inside the [with] block, once the scratch copy exists,
    for a table [available] of adapters. *)
Definition run_deobfuscators (available : list Deobfuscator)
    (cfg_deobfuscators : list string) (src_file_path : string)
  : Py.M Run Outcome :=
  l <- for_deob_in available cfg_deobfuscators (initial_locals src_file_path) ;;
  conclude l.

(** [with tempfile.TemporaryDirectory() as cur_dir: body]: the directory is
    removed whether the body returns or raises. *)
Definition with_temporary_directory {A} (body : string -> Py.M Run A)
  : Py.M Run A :=
  fun r =>
    let (cur_dir, w) := mkdtemp (world r) in
    let (a, r') := body cur_dir {| world := w; calls := calls r |} in
    (a, {| world := rmtree cur_dir (world r'); calls := calls r' |}).

(** Lines 54-64: [Some] is an early [return]. *)
Definition precheck (in_file_path : string) : Py.M Run (option Outcome) :=
  Py.try_except
    (data_directory <- in_world (Py.reading (pefile_PE in_file_path)) ;;
     if ((List.length data_directory <? 15)%nat
         || (nth 14 data_directory 0 =? 0)%Z)%bool
     then Py.ret (Some (OptOut "Not a .NET assembly"))
     else Py.ret None)
    [ (Py.is_PEFormatError,
       Py.ret (Some (ErrorException "Error while parsing PE"))) ].

(** [AzulPluginDotnetDeob.execute], for the configured list of keys
    [self.cfg.deobfuscators] and the path of the job's data. *)
Definition execute (cfg_deobfuscators : list string) (in_file_path : string)
  : Py.M Run Outcome :=
  early <- precheck in_file_path ;;
  match early with
  | Some state => Py.ret state
  | None =>
      with_temporary_directory (fun cur_dir =>
        let src_file_path :=
          PosixPath.join cur_dir [PosixPath.basename in_file_path] in
        _ <- in_world (shutil_copy in_file_path src_file_path) ;;
        run_deobfuscators AVAILABLE_DEOBFUSCATORS cfg_deobfuscators
          src_file_path)
  end.

End Main.

(** The default of the setting [deobfuscators]. *)
Definition default_deobfuscators : list string :=
  [ key UnscramblerDeobfuscator;
    key ConfuserExStaticStringDecryptorDeobfuscator;
    key De4dotCexDeobfuscator ].

(* ================================================================== *)
(** ** A scripted host, to run the code on concrete inputs *)

Module Scenario.

(** What one wrapped tool does when it is started. *)
Inductive Behaviour : Type :=
| Fails (e : Py.exception)
| Exits (code : Z) (out err : string) (creates : list string).

(** The three command lines differ in their first word and their length. *)
Definition tool_of (args : list string) : string :=
  match args with
  | exe :: _ :: rest =>
      if String.eqb exe "dotnet" then key UnscramblerDeobfuscator
      else match rest with
           | [] => key ConfuserExStaticStringDecryptorDeobfuscator
           | _ => key De4dotCexDeobfuscator
           end
  | _ => EmptyString
  end.

(** The world is the list of paths that exist; [script] gives the behaviour
    of each tool by key, [listable] the directories that [os.listdir] can
    read, [pe] what the PE parser answers. *)
Definition host (script : string -> Behaviour) (listable : list string)
    (pe : Py.result (list Z)) : Host := {|
  World := list string;
  subprocess_run := fun args _ _ w =>
    match script (tool_of args) with
    | Fails e => (Py.Raise e, w)
    | Exits code out err creates =>
        (Py.Return {| returncode := code; stdout := out; stderr := err |},
         creates ++ w)
    end;
  os_path_exists := fun p w => existsb (String.eqb p) w;
  os_listdir := fun p _ =>
    if existsb (String.eqb p) listable then Py.Return []
    else Py.Raise Py.FileNotFoundError;
  format_list := String.concat ", ";
  module_dir := "/opt/deob";
  pefile_PE := fun _ _ => pe;
  mkdtemp := fun w => ("/tmp/run", w);
  rmtree := fun _ w => w;
  shutil_copy := fun _ dst w => (Py.Return tt, dst :: w);
  open_rb := fun p w =>
    if existsb (String.eqb p) w then Py.Return tt
    else Py.Raise Py.FileNotFoundError
|}.

(** A data directory with a .NET metadata entry. *)
Definition dotnet_pe : Py.result (list Z) :=
  Py.Return (repeat 0%Z 14 ++ [8192%Z; 0%Z]).

Definition start {H : Host} (w : World) : Run :=
  {| world := w; calls := [] |}.

(** The keys of the adapters that were called, in the order of the calls. *)
Definition called {H : Host} (r : Run) : list string :=
  map (fun c => key (call_tool c)) (calls r).

Definition not_dotnet_text : string :=
  "Format of the executable (.exe) or library (.dll) is invalid.".

Definition truncated_text : string :=
  "There's not enough bytes left to read".

End Scenario.

(* ================================================================== *)
(** ** Vocabulary of the statements *)

(** The artifact of a call that succeeded. *)
Definition artifact (c : Call) : option string :=
  match call_result c with
  | Py.Return (Some out, _) => Some out
  | _ => None
  end.

Definition succeeded (c : Call) : bool :=
  match artifact c with Some _ => true | None => false end.

(** The raw error of a call that failed. *)
Definition raw_error (c : Call) : option string :=
  match call_result c with
  | Py.Return (None, Some e) => Some e
  | _ => None
  end.

(** The artifacts of the calls that succeeded, oldest first. *)
Definition artifacts (cs : list Call) : list string :=
  flat_map (fun c => match artifact c with Some out => [out] | None => [] end)
    cs.

(** The most recent artifact, or [scratch] when no call has succeeded. *)
Definition candidate_after (scratch : string) (cs : list Call) : string :=
  last (artifacts cs) scratch.

(** The display names of the adapters whose call succeeded, oldest first. *)
Definition success_names (cs : list Call) : list string :=
  map (fun c => display_name (call_tool c)) (filter succeeded cs).

(** The text that is stored beside a failed adapter. *)
Definition composed_message (deob : Deobfuscator) (raw : string) : string :=
  ("Deobfuscator " ++ display_name deob ++ " failed with error: " ++ raw)%string.

(** The failed adapters with their stored text, oldest first. *)
Definition composed_failures (cs : list Call) : list (Deobfuscator * string) :=
  flat_map
    (fun c => match raw_error c with
              | Some e => [(call_tool c, composed_message (call_tool c) e)]
              | None => []
              end)
    cs.

(** Every call received the candidate that the calls before it left. *)
Definition chained (scratch : string) (cs : list Call) : Prop :=
  forall before c after,
    cs = before ++ c :: after -> call_input c = candidate_after scratch before.

(** The adapters that a configuration selects, in the order of the table. *)
Definition selected (available : list Deobfuscator) (cfg : list string)
  : list Deobfuscator :=
  filter (fun deob => contains cfg (key deob)) available.

(** The last element of a list, if any. *)
Definition last_of {A} (l : list A) : option A :=
  match rev l with
  | x :: _ => Some x
  | [] => None
  end.

(** A result with exactly one side populated. *)
Definition one_sided (r : DeobResult) : Prop :=
  (exists out, r = (Some out, None)) \/ (exists msg, r = (None, Some msg)).

Section Classification.
Context {R : Regex}.

(** The kind that one failed adapter's own patterns give to its text. *)
Definition kind_of (failure : Deobfuscator * string) : option DeobFailTypes :=
  for_mapping_in (regex_exception_mappings (fst failure)) (snd failure) None.

(** The kinds of the failed adapters that matched, in execution order. *)
Definition kinds_of (failed : list (Deobfuscator * string))
  : list DeobFailTypes :=
  flat_map (fun f => match kind_of f with Some k => [k] | None => [] end)
    failed.

End Classification.

Section History.
Context {H : Host}.

(** What the two [except] clauses make of an exception. *)
Definition handled (e : Py.exception) (w : World) : Py.result DeobResult * World :=
  if Py.is_OSError e
  then (Py.Return (None, Some "OSError occured while deobfuscating."), w)
  else if Py.is_TimeoutExpired e
  then (Py.Return (None, Some "Timed out while deobfuscating."), w)
  else (Py.Raise e, w).

(** The call that the loop records for [deob] when the locals are [l]. *)
Definition record_call (deob : Deobfuscator) (l : Locals)
    (a : Py.result DeobResult) : Call :=
  {| call_tool := deob; call_input := newest_file_path l; call_result := a |}.

Definition after_call (r : Run) (w : World) (c : Call) : Run :=
  {| world := w; calls := calls r ++ [c] |}.

(** What a run of the loop did, read from the calls it made. *)
Definition explains (available : list Deobfuscator) (cfg : list string)
    (l0 : Locals) (res : Py.result Locals) (cs : list Call) : Prop :=
  match res with
  | Py.Return l =>
      map call_tool cs = selected available cfg
      /\ Forall (fun c => exists x, call_result c = Py.Return x /\ one_sided x) cs
      /\ newest_file_path l = candidate_after (newest_file_path l0) cs
      /\ successful_deobs l = successful_deobs l0 ++ success_names cs
      /\ failed_deobs l = failed_deobs l0 ++ composed_failures cs
  | Py.Raise e =>
      exists before c, cs = before ++ [c] /\ call_result c = Py.Raise e
  end.

(** The calls are what [deobfuscate] gave, one after the other: each was
    made on its adapter and its input in the world that the call before it
    left, starting from [w] and ending in [w']. *)
Fixpoint replayed (w : World) (cs : list Call) (w' : World) : Prop :=
  match cs with
  | [] => w' = w
  | c :: rest =>
      exists w1,
        deobfuscate (call_tool c) (call_input c) w = (call_result c, w1)
        /\ replayed w1 rest w'
  end.

End History.

(** The output name that [splitext] gives when [suffix] is put before the
    extension of [p]. *)
Definition suffix_before_extension (suffix p : string) : string :=
  let (root, ext) := PosixPath.splitext p in (root ++ suffix ++ ext)%string.

Module Cases.
Import Scenario.

(** The Static String Decryptor exits cleanly and writes nothing; the
    other two cannot be started. *)
Definition silent_decryptor (k : string) : Behaviour :=
  if String.eqb k (key ConfuserExStaticStringDecryptorDeobfuscator)
  then Exits 0 "done" EmptyString []
  else Fails Py.OSError.

(** No directory of the working directory carries the artifact's name. *)
Definition plain_host : Host := host silent_decryptor [] dotnet_pe.

(** The working directory has a directory named like the artifact. *)
Definition shadowed_host : Host :=
  host silent_decryptor ["sample.exeCleaned.exe"] dotnet_pe.

(** Unscrambler outlives the timeout, de4dot-cex then succeeds. *)
Definition slow_unscrambler (k : string) : Behaviour :=
  if String.eqb k (key UnscramblerDeobfuscator) then Fails Py.TimeoutExpired
  else if String.eqb k (key De4dotCexDeobfuscator)
  then Exits 0 EmptyString EmptyString ["/tmp/run/sample.exedeob-cex"]
  else Exits 1 EmptyString truncated_text [].

Definition slow_host : Host := host slow_unscrambler [] dotnet_pe.

(** Every tool exits with status 1. *)
Definition all_reject (k : string) : Behaviour :=
  Exits 1 EmptyString not_dotnet_text [].

Definition rejecting_host : Host := host all_reject [] dotnet_pe.

(** Unscrambler reports an image without .NET metadata, the Static String
    Decryptor then reports truncated content, de4dot-cex fails with a text
    that none of its patterns describes. *)
Definition mixed_failures (k : string) : Behaviour :=
  if String.eqb k (key UnscramblerDeobfuscator)
  then Exits 1 EmptyString
         "PE image does not contain a .NET metadata directory" []
  else if String.eqb k (key ConfuserExStaticStringDecryptorDeobfuscator)
  then Exits 1 EmptyString truncated_text []
  else Exits 1 EmptyString "Unhandled exception" [].

Definition mixed_host : Host := host mixed_failures [] dotnet_pe.

(** Unscrambler changes nothing and leaves no artifact; the two tools
    after it succeed. *)
Definition two_succeed (k : string) : Behaviour :=
  if String.eqb k (key UnscramblerDeobfuscator)
  then Exits 1 EmptyString "Nothing to unscramble" []
  else if String.eqb k (key ConfuserExStaticStringDecryptorDeobfuscator)
  then Exits 0 EmptyString EmptyString ["/tmp/run/sample.exeCleaned.exe"]
  else Exits 0 EmptyString EmptyString
         ["/tmp/run/sample.exeCleaned.exedeob-cex"].

Definition chaining_host : Host := host two_succeed [] dotnet_pe.

(** A configuration that lists de4dot-cex before Unscrambler. *)
Definition reversed_cfg : list string :=
  [ key De4dotCexDeobfuscator; key UnscramblerDeobfuscator ].


End Cases.

(* ================================================================== *)
(** ** Vocabulary of the further statements *)

(** A pattern with [$] among its tokens. *)
Definition anchored_at_end (ts : list Re.token) : bool :=
  existsb (fun t => match t with Re.Eol => true | _ => false end) ts.


(** The error text of an invocation that exits with a non-zero status. *)
Definition nonzero_exit_message (res : CompletedProcess) : string :=
  ("An unexpected error occurred when deobfuscating. stderr "
   ++ stderr res ++ " stdout: " ++ stdout res ++ ".")%string.

(** Two configured lists hold the same keys of a table of adapters. *)
Definition same_selection (available : list Deobfuscator)
    (cfg cfg' : list string) : Prop :=
  forall deob,
    In deob available -> contains cfg (key deob) = contains cfg' (key deob).

(** A failed adapter whose stored text none of its patterns describes, for
    either of the two texts that the [except] clauses produce. *)
Definition undescribed {R : Regex} (deob : Deobfuscator) : bool :=
  match
    kind_of (deob, composed_message deob "OSError occured while deobfuscating."),
    kind_of (deob, composed_message deob "Timed out while deobfuscating.")
  with
  | None, None => true
  | _, _ => false
  end.

(** The locals after the body of the loop has run a call that returned. *)
Definition locals_after (c : Call) (l : Locals) : option Locals :=
  match call_result c with
  | Py.Return (Some out, _) =>
      Some {| newest_file_path := out;
              successful_deobs :=
                successful_deobs l ++ [display_name (call_tool c)];
              failed_deobs := failed_deobs l |}
  | Py.Return (None, Some raw) =>
      Some {| newest_file_path := newest_file_path l;
              successful_deobs := successful_deobs l;
              failed_deobs :=
                failed_deobs l
                ++ [(call_tool c, composed_message (call_tool c) raw)] |}
  | _ => None
  end.

Section FurtherVocabulary.
Context {H : Host}.

(** The path at which an adapter expects its artifact for a given input. *)
Definition expected_for (deob : Deobfuscator) (in_file_path : string)
  : string :=
  expected_out_file_loc
    (invocation deob (_get_path_to_cmd deob) in_file_path).

(** The process that an adapter starts for a given input, in a world. *)
Definition started (deob : Deobfuscator) (in_file_path : string) (w : World)
  : Py.result CompletedProcess * World :=
  subprocess_run
    (commandList (invocation deob (_get_path_to_cmd deob) in_file_path))
    (stdin (invocation deob (_get_path_to_cmd deob) in_file_path))
    60 w.

(** A call of the history holds what [deobfuscate] gave for its adapter and
    its input in some world. *)
Definition genuine (c : Call) : Prop :=
  exists w w',
    deobfuscate (call_tool c) (call_input c) w = (call_result c, w').

(** No process can be started, or every process outlives the timeout. *)
Definition nothing_runs : Prop :=
  forall args input w,
  exists e w',
    subprocess_run args input 60 w = (Py.Raise e, w')
    /\ (Py.is_OSError e || Py.is_TimeoutExpired e)%bool = true.

(** The scratch copy that [execute] makes in the temporary directory. *)
Definition scratch_path (in_file_path : string) (w : World) : string :=
  PosixPath.join (fst (mkdtemp w)) [PosixPath.basename in_file_path].

End FurtherVocabulary.

Module MoreCases.
Import Scenario Cases.

(** Every tool writes bytes that are not UTF-8 to its output. *)
Definition garbled (k : string) : Behaviour := Fails Py.UnicodeDecodeError.

Definition garbled_host : Host := host garbled [] dotnet_pe.

(** The interpreters [mono] and [dotnet] are not installed. *)
Definition not_installed (k : string) : Behaviour :=
  Fails Py.FileNotFoundError.

Definition bare_host : Host := host not_installed [] dotnet_pe.

(** A file that is not a PE image at all. *)
Definition unparsable_host : Host :=
  host all_reject [] (Py.Raise Py.PEFormatError).

(** A native PE image: the entry of the .NET metadata directory is zero. *)
Definition native_host : Host :=
  host all_reject [] (Py.Return (repeat 0%Z 16)).

(** The host [h] with a scratch directory that cannot be written. *)
Definition read_only (h : Host) : Host := {|
  World := @World h;
  subprocess_run := @subprocess_run h;
  os_path_exists := @os_path_exists h;
  os_listdir := @os_listdir h;
  format_list := @format_list h;
  module_dir := @module_dir h;
  pefile_PE := @pefile_PE h;
  mkdtemp := @mkdtemp h;
  rmtree := @rmtree h;
  shutil_copy := fun _ _ w => (Py.Raise Py.PermissionError, w);
  open_rb := @open_rb h
|}.

Definition read_only_host : Host := read_only rejecting_host.


(** The keys of [reversed_cfg] with a repetition and an unknown key. *)
Definition padded_cfg : list string :=
  [ "no-such-tool"; key UnscramblerDeobfuscator; key De4dotCexDeobfuscator;
    key UnscramblerDeobfuscator ]%string.

End MoreCases.

(* ================================================================== *)
(** ** The process runner: [_deobfuscate] *)

Section Runner.
Context {H : Host}.

Lemma _deobfuscate_run_raises args expected input w e w' :
  subprocess_run args input 60 w = (Py.Raise e, w') ->
  _deobfuscate args expected input w = handled e w'.
Proof.
  intros Hrun. unfold _deobfuscate, Py.try_except, Py.bind, handled.
  rewrite Hrun. simpl. destruct e; reflexivity.
Qed.

Lemma _deobfuscate_nonzero args expected input w res w' :
  subprocess_run args input 60 w = (Py.Return res, w') ->
  returncode res <> 0%Z ->
  _deobfuscate args expected input w =
  (Py.Return
     (None,
      Some ("An unexpected error occurred when deobfuscating. stderr "
            ++ stderr res ++ " stdout: " ++ stdout res ++ ".")%string), w').
Proof.
  intros Hrun Hcode. unfold _deobfuscate, Py.try_except, Py.bind.
  rewrite Hrun. apply Z.eqb_neq in Hcode. rewrite Hcode. reflexivity.
Qed.

Lemma _deobfuscate_produced args expected input w res w' :
  subprocess_run args input 60 w = (Py.Return res, w') ->
  returncode res = 0%Z ->
  os_path_exists expected w' = true ->
  _deobfuscate args expected input w = (Py.Return (Some expected, None), w').
Proof.
  intros Hrun Hcode Hex. unfold _deobfuscate, Py.try_except, Py.bind.
  rewrite Hrun, Hcode. simpl. rewrite Hex. reflexivity.
Qed.

Lemma _deobfuscate_missing args expected input w res w' :
  subprocess_run args input 60 w = (Py.Return res, w') ->
  returncode res = 0%Z ->
  os_path_exists expected w' = false ->
  _deobfuscate args expected input w =
  match os_listdir (PosixPath.basename expected) w' with
  | Py.Return _ => (Py.Raise Py.TypeError, w')
  | Py.Raise e => handled e w'
  end.
Proof.
  intros Hrun Hcode Hex.
  unfold _deobfuscate, Py.try_except, Py.bind, Py.reading, handled.
  rewrite Hrun, Hcode. simpl. rewrite Hex.
  destruct (os_listdir (PosixPath.basename expected) w') as [names | e];
    simpl; [reflexivity | destruct e; reflexivity].
Qed.

Lemma handled_one_sided e w r w' :
  handled e w = (Py.Return r, w') -> one_sided r.
Proof.
  unfold handled. intros Hh.
  destruct (Py.is_OSError e); [| destruct (Py.is_TimeoutExpired e)];
    inversion Hh; subst; right; eexists; reflexivity.
Qed.

(** Whatever [_deobfuscate] returns has exactly one side populated. *)
Lemma _deobfuscate_one_sided args expected input w r w' :
  _deobfuscate args expected input w = (Py.Return r, w') -> one_sided r.
Proof.
  intros Hd.
  destruct (subprocess_run args input 60 w) as [[res | e] w1] eqn:Hrun.
  - destruct (Z.eq_dec (returncode res) 0) as [Hz | Hnz].
    + destruct (os_path_exists expected w1) eqn:Hex.
      * rewrite (_deobfuscate_produced _ _ _ _ _ _ Hrun Hz Hex) in Hd.
        inversion Hd; subst. left; eexists; reflexivity.
      * rewrite (_deobfuscate_missing _ _ _ _ _ _ Hrun Hz Hex) in Hd.
        destruct (os_listdir (PosixPath.basename expected) w1) as [names | e].
        -- discriminate.
        -- eapply handled_one_sided; eassumption.
    + rewrite (_deobfuscate_nonzero _ _ _ _ _ _ Hrun Hnz) in Hd.
      inversion Hd; subst. right; eexists; reflexivity.
  - rewrite (_deobfuscate_run_raises _ expected _ _ _ _ Hrun) in Hd.
    eapply handled_one_sided; eassumption.
Qed.

Lemma deobfuscate_one_sided deob p w r w' :
  deobfuscate deob p w = (Py.Return r, w') -> one_sided r.
Proof. unfold deobfuscate. apply _deobfuscate_one_sided. Qed.

End Runner.

(* ================================================================== *)
(** ** The loop over the adapters *)

Lemma last_cons_default {A} (x d : A) (l : list A) :
  last (x :: l) d = last l x.
Proof.
  revert x d. induction l as [| y l IH]; intros x d; [reflexivity |].
  change (last (x :: y :: l) d) with (last (y :: l) d).
  rewrite (IH y d), (IH y x). reflexivity.
Qed.

Lemma candidate_after_cons scratch c cs :
  candidate_after scratch (c :: cs) =
  candidate_after
    (match artifact c with Some out => out | None => scratch end) cs.
Proof.
  unfold candidate_after, artifacts. simpl.
  destruct (artifact c) as [out |]; simpl; [| reflexivity].
  apply last_cons_default.
Qed.

Lemma chained_nil scratch : chained scratch [].
Proof. intros [| x before] c after Heq; discriminate. Qed.

Lemma chained_cons scratch c cs :
  call_input c = scratch ->
  chained (match artifact c with Some out => out | None => scratch end) cs ->
  chained scratch (c :: cs).
Proof.
  intros Hin Hcs [| x before] c' after Heq.
  - inversion Heq; subst. reflexivity.
  - inversion Heq; subst. rewrite candidate_after_cons.
    eapply Hcs. reflexivity.
Qed.

Lemma selected_cons_in deob rest cfg :
  contains cfg (key deob) = true ->
  selected (deob :: rest) cfg = deob :: selected rest cfg.
Proof. intros Hc. unfold selected. simpl. rewrite Hc. reflexivity. Qed.

Lemma selected_cons_out deob rest cfg :
  contains cfg (key deob) = false ->
  selected (deob :: rest) cfg = selected rest cfg.
Proof. intros Hc. unfold selected. simpl. rewrite Hc. reflexivity. Qed.

Section Loop.
Context {H : Host} {R : Regex}.

Lemma loop_body_skip cfg deob l r :
  contains cfg (key deob) = false ->
  loop_body cfg deob l r = (Py.Return l, r).
Proof. intros Hc. unfold loop_body. rewrite Hc. reflexivity. Qed.

Lemma loop_body_success cfg deob l r out err w :
  contains cfg (key deob) = true ->
  deobfuscate deob (newest_file_path l) (world r)
  = (Py.Return (Some out, err), w) ->
  loop_body cfg deob l r =
  (Py.Return {| newest_file_path := out;
                successful_deobs := successful_deobs l ++ [display_name deob];
                failed_deobs := failed_deobs l |},
   after_call r w (record_call deob l (Py.Return (Some out, err)))).
Proof.
  intros Hc Hd. unfold loop_body. rewrite Hc. cbn [negb].
  unfold Py.bind, call_deobfuscate. rewrite Hd. reflexivity.
Qed.

Lemma loop_body_failure cfg deob l r raw w :
  contains cfg (key deob) = true ->
  deobfuscate deob (newest_file_path l) (world r)
  = (Py.Return (None, Some raw), w) ->
  loop_body cfg deob l r =
  (Py.Return {| newest_file_path := newest_file_path l;
                successful_deobs := successful_deobs l;
                failed_deobs :=
                  failed_deobs l ++ [(deob, composed_message deob raw)] |},
   after_call r w (record_call deob l (Py.Return (None, Some raw)))).
Proof.
  intros Hc Hd. unfold loop_body. rewrite Hc. cbn [negb].
  unfold Py.bind, call_deobfuscate. rewrite Hd. reflexivity.
Qed.

Lemma loop_body_raise cfg deob l r e w :
  contains cfg (key deob) = true ->
  deobfuscate deob (newest_file_path l) (world r) = (Py.Raise e, w) ->
  loop_body cfg deob l r =
  (Py.Raise e, after_call r w (record_call deob l (Py.Raise e))).
Proof.
  intros Hc Hd. unfold loop_body. rewrite Hc. cbn [negb].
  unfold Py.bind, call_deobfuscate. rewrite Hd. reflexivity.
Qed.

Lemma for_deob_in_cons deob rest cfg l r :
  for_deob_in (deob :: rest) cfg l r =
  match loop_body cfg deob l r with
  | (Py.Return l', r') => for_deob_in rest cfg l' r'
  | (Py.Raise e, r') => (Py.Raise e, r')
  end.
Proof. reflexivity. Qed.

Lemma for_deob_in_history available cfg :
  forall l0 r,
  exists cs,
    calls (snd (for_deob_in available cfg l0 r)) = calls r ++ cs
    /\ chained (newest_file_path l0) cs
    /\ explains available cfg l0 (fst (for_deob_in available cfg l0 r)) cs.
Proof.
  induction available as [| deob rest IH]; intros l0 r.
  - exists []. simpl. rewrite app_nil_r.
    repeat split; auto using chained_nil; now rewrite app_nil_r.
  - rewrite for_deob_in_cons.
    destruct (contains cfg (key deob)) eqn:Hc.
    + destruct (deobfuscate deob (newest_file_path l0) (world r))
        as [[[[out |] err] | e] w] eqn:Hd.
      * rewrite (loop_body_success _ _ _ _ _ _ _ Hc Hd).
        match goal with |- context [for_deob_in rest cfg ?l ?r'] =>
          destruct (IH l r') as (cs & Hcalls & Hch & Hex);
          destruct (for_deob_in rest cfg l r') as [[l1 | e1] r1] end;
        cbn [fst snd explains calls newest_file_path successful_deobs failed_deobs] in *; exists (record_call deob l0 (Py.Return (Some out, err)) :: cs);
        (split; [rewrite Hcalls; unfold after_call; cbn [calls];
                 rewrite <- app_assoc; reflexivity |]);
        (split; [apply chained_cons; [reflexivity | exact Hch] |]).
        -- destruct Hex as (Ht & Hall & Hn & Hs & Hf).
           repeat split.
           ++ rewrite (selected_cons_in _ _ _ Hc). simpl. f_equal. exact Ht.
           ++ constructor; [| exact Hall].
              eexists; split; [reflexivity |].
              eapply deobfuscate_one_sided; exact Hd.
           ++ rewrite candidate_after_cons. exact Hn.
           ++ rewrite Hs, <- app_assoc. reflexivity.
           ++ exact Hf.
        -- destruct Hex as (before & c & Heq & Hr).
           exists (record_call deob l0 (Py.Return (Some out, err)) :: before), c.
           split; [rewrite Heq; reflexivity | exact Hr].
      * destruct err as [raw |].
        2:{ apply deobfuscate_one_sided in Hd.
            destruct Hd as [[o Ho] | [m Hm]]; discriminate. }
        rewrite (loop_body_failure _ _ _ _ _ _ Hc Hd).
        match goal with |- context [for_deob_in rest cfg ?l ?r'] =>
          destruct (IH l r') as (cs & Hcalls & Hch & Hex);
          destruct (for_deob_in rest cfg l r') as [[l1 | e1] r1] end;
        cbn [fst snd explains calls newest_file_path successful_deobs failed_deobs] in *; exists (record_call deob l0 (Py.Return (None, Some raw)) :: cs);
        (split; [rewrite Hcalls; unfold after_call; cbn [calls];
                 rewrite <- app_assoc; reflexivity |]);
        (split; [apply chained_cons; [reflexivity | exact Hch] |]).
        -- destruct Hex as (Ht & Hall & Hn & Hs & Hf).
           repeat split.
           ++ rewrite (selected_cons_in _ _ _ Hc). simpl. f_equal. exact Ht.
           ++ constructor; [| exact Hall].
              eexists; split; [reflexivity |].
              right; eexists; reflexivity.
           ++ rewrite candidate_after_cons. exact Hn.
           ++ exact Hs.
           ++ rewrite Hf, <- app_assoc. reflexivity.
        -- destruct Hex as (before & c & Heq & Hr).
           exists (record_call deob l0 (Py.Return (None, Some raw)) :: before), c.
           split; [rewrite Heq; reflexivity | exact Hr].
      * rewrite (loop_body_raise _ _ _ _ _ _ Hc Hd). simpl.
        exists [record_call deob l0 (Py.Raise e)].
        split; [reflexivity |].
        split; [apply chained_cons; [reflexivity | apply chained_nil] |].
        exists [], (record_call deob l0 (Py.Raise e)). split; reflexivity.
    + rewrite (loop_body_skip _ _ _ _ Hc).
      destruct (IH l0 r) as (cs & Hcalls & Hch & Hex).
      exists cs. split; [exact Hcalls |]. split; [exact Hch |].
      destruct (fst (for_deob_in rest cfg l0 r)); [| exact Hex].
      cbn [fst snd explains calls newest_file_path successful_deobs failed_deobs] in *. rewrite (selected_cons_out _ _ _ Hc). exact Hex.
Qed.

(** The history of a run holds the results of the calls themselves, made
    in sequence on the world. *)
Lemma for_deob_in_replayed available cfg :
  forall l0 r,
  exists cs,
    calls (snd (for_deob_in available cfg l0 r)) = calls r ++ cs
    /\ replayed (world r) cs (world (snd (for_deob_in available cfg l0 r))).
Proof.
  induction available as [| deob rest IH]; intros l0 r.
  - exists []. simpl. rewrite app_nil_r. split; reflexivity.
  - rewrite for_deob_in_cons.
    destruct (contains cfg (key deob)) eqn:Hc.
    + destruct (deobfuscate deob (newest_file_path l0) (world r))
        as [[[[out |] err] | e] w] eqn:Hd.
      * rewrite (loop_body_success _ _ _ _ _ _ _ Hc Hd).
        match goal with |- context [for_deob_in rest cfg ?l ?r'] =>
          destruct (IH l r') as (cs & Hcalls & Hrep) end.
        exists (record_call deob l0 (Py.Return (Some out, err)) :: cs).
        split.
        -- rewrite Hcalls. unfold after_call; cbn [calls].
           rewrite <- app_assoc. reflexivity.
        -- exists w. split; [exact Hd | exact Hrep].
      * destruct err as [raw |].
        2:{ apply deobfuscate_one_sided in Hd.
            destruct Hd as [[o Ho] | [m Hm]]; discriminate. }
        rewrite (loop_body_failure _ _ _ _ _ _ Hc Hd).
        match goal with |- context [for_deob_in rest cfg ?l ?r'] =>
          destruct (IH l r') as (cs & Hcalls & Hrep) end.
        exists (record_call deob l0 (Py.Return (None, Some raw)) :: cs).
        split.
        -- rewrite Hcalls. unfold after_call; cbn [calls].
           rewrite <- app_assoc. reflexivity.
        -- exists w. split; [exact Hd | exact Hrep].
      * rewrite (loop_body_raise _ _ _ _ _ _ Hc Hd). cbn [fst snd].
        exists [record_call deob l0 (Py.Raise e)].
        split; [reflexivity |].
        exists w. split; [exact Hd | reflexivity].
    + rewrite (loop_body_skip _ _ _ _ Hc). apply IH.
Qed.

End Loop.

Lemma some_success_names cs :
  (0 <? List.length (success_names cs))%nat = existsb succeeded cs.
Proof.
  unfold success_names.
  induction cs as [| c cs IH]; [reflexivity |].
  simpl. destruct (succeeded c); [reflexivity | exact IH].
Qed.

Section Pipeline.
Context {H : Host} {R : Regex}.

(** The calls of a run that returns are those of the selected adapters, in
    the order of the table [available]. *)
Lemma calls_follow_the_table available cfg l0 r l r' :
  for_deob_in available cfg l0 r = (Py.Return l, r') ->
  exists cs,
    calls r' = calls r ++ cs /\ map call_tool cs = selected available cfg.
Proof.
  intros Hrun.
  destruct (for_deob_in_history available cfg l0 r) as (cs & Hcalls & _ & Hex).
  rewrite Hrun in Hcalls, Hex. cbn [fst snd explains] in *.
  exists cs. split; [exact Hcalls | apply Hex].
Qed.

(** C4. In every run of the loop from the scratch copy, the calls [cs]
    are what [deobfuscate] itself returned or raised, adapter after
    adapter, each on the world that the one before it left; each adapter
    called receives the most recent artifact returned, or the scratch copy
    when none has succeeded before it; when the loop returns, the
    candidate path is the path returned by the last call that succeeded
    (the scratch copy if none did), the success list holds the display
    names of exactly the calls that succeeded, in the order of the calls,
    the failed list holds exactly the calls that failed, and with at least
    one success the candidate, once opened, and the joined names are what
    is handed to the caller.  The loop fails to return only when a call
    itself raises. *)
Theorem candidate_is_last_successful_artifact available cfg scratch r :
  exists cs,
    calls (snd (for_deob_in available cfg (initial_locals scratch) r))
    = calls r ++ cs
    /\ replayed (world r) cs
         (world (snd (for_deob_in available cfg (initial_locals scratch) r)))
    /\ chained scratch cs
    /\ match for_deob_in available cfg (initial_locals scratch) r with
       | (Py.Return l, r') =>
           map call_tool cs = selected available cfg
           /\ newest_file_path l = candidate_after scratch cs
           /\ successful_deobs l = success_names cs
           /\ failed_deobs l = composed_failures cs
           /\ run_deobfuscators available cfg scratch r =
              if existsb succeeded cs then
                match open_rb (candidate_after scratch cs) (world r') with
                | Py.Return _ =>
                    (Py.Return
                       (ChildAdded (String.concat "," (success_names cs))
                          (candidate_after scratch cs)), r')
                | Py.Raise e => (Py.Raise e, r')
                end
              else
                (Py.Return
                   (outcome_of_error_type
                      (classify_failures (composed_failures cs))), r')
       | (Py.Raise e, r') =>
           (exists before c, cs = before ++ [c] /\ call_result c = Py.Raise e)
           /\ run_deobfuscators available cfg scratch r = (Py.Raise e, r')
       end.
Proof.
  destruct (for_deob_in_history available cfg (initial_locals scratch) r)
    as (cs & Hcalls & Hch & Hex).
  destruct (for_deob_in_replayed available cfg (initial_locals scratch) r)
    as (cs' & Hcalls' & Hrep).
  rewrite Hcalls in Hcalls'. apply app_inv_head in Hcalls'. subst cs'.
  exists cs. split; [exact Hcalls |]. split; [exact Hrep |].
  split; [exact Hch |].
  unfold run_deobfuscators, Py.bind.
  destruct (for_deob_in available cfg (initial_locals scratch) r)
    as [[l | e] r'].
  - cbn [fst explains initial_locals newest_file_path successful_deobs
         failed_deobs] in Hex.
    destruct Hex as (Ht & _ & Hn & Hs & Hf). simpl in Hs, Hf.
    repeat (split; [assumption |]).
    unfold conclude.
    rewrite Hs, Hf, Hn, some_success_names.
    destruct (existsb succeeded cs); [| reflexivity].
    unfold Py.bind, in_world, Py.reading. destruct r' as [w' cs'].
    cbn [world calls].
    destruct (open_rb (candidate_after scratch cs) w'); reflexivity.
  - split; [exact Hex | reflexivity].
Qed.

(** C6. With an empty list of keys the loop calls no adapter (the run
    state, world and calls, is returned as it was found), the failed list
    is empty, and the run ends with the generic outcome
    [no-deobfuscation-processed]. *)
Theorem empty_selection_runs_nothing available scratch r :
  for_deob_in available [] (initial_locals scratch) r
  = (Py.Return (initial_locals scratch), r)
  /\ failed_deobs (initial_locals scratch) = []
  /\ run_deobfuscators available [] scratch r
     = (Py.Return
          (CompletedEmpty "no-deobfuscation-processed"
             "Could not run any of the deobfuscators."), r).
Proof.
  assert (Hloop : forall l,
            for_deob_in available [] l r = (Py.Return l, r)).
  { induction available as [| deob rest IH]; intros l; [reflexivity |].
    rewrite for_deob_in_cons, loop_body_skip by reflexivity. apply IH. }
  split; [apply Hloop |]. split; [reflexivity |].
  unfold run_deobfuscators, Py.bind. rewrite Hloop. reflexivity.
Qed.

End Pipeline.

(* ================================================================== *)
(** ** Classification of failures *)

Lemma list_ascii_of_string_app (a b : string) :
  list_ascii_of_string (a ++ b)%string
  = list_ascii_of_string a ++ list_ascii_of_string b.
Proof. induction a as [| c a IH]; simpl; [| rewrite IH]; reflexivity. Qed.

Module ReFacts.
Import Re.

(** Away from position 0 the search does not depend on [at_start]. *)
Lemma search_from_tail ts b x s :
  search_from ts b (x :: s) = (match_here ts b (x :: s) || search_from ts false s)%bool.
Proof. reflexivity. Qed.

(** [search] finds a match exactly when the tokens match at some position
    of the subject. *)
Lemma search_from_anywhere ts s :
  forall b,
  search_from ts b s = true <->
  exists before rest,
    s = before ++ rest
    /\ match_here ts (match before with [] => b | _ => false end) rest = true.
Proof.
  induction s as [| x s IH]; intros b.
  - simpl. rewrite orb_false_r. split.
    + intros Hm. exists [], []. split; [reflexivity | exact Hm].
    + intros (before & rest & Heq & Hm).
      destruct before; [| discriminate]. simpl in Heq. subst rest. exact Hm.
  - rewrite search_from_tail, orb_true_iff, (IH false). split.
    + intros [Hm | (before & rest & Heq & Hm)].
      * exists [], (x :: s). split; [reflexivity | exact Hm].
      * exists (x :: before), rest. split; [simpl; now rewrite Heq |].
        destruct before; exact Hm.
    + intros (before & rest & Heq & Hm). destruct before as [| y before].
      * left. simpl in Heq. subst rest. exact Hm.
      * right. inversion Heq; subst. exists before, rest.
        split; [reflexivity |]. destruct before; exact Hm.
Qed.

(** Without [^] a match does not depend on where the subject starts. *)
Lemma match_here_unanchored ts :
  anchored_at_start ts = false ->
  forall b b' s, match_here ts b s = match_here ts b' s.
Proof.
  induction ts as [| t ts IH]; intros Ha b b' s; [reflexivity |].
  destruct t; simpl in Ha; try discriminate; revert s.
  - intros [| x s]; simpl; [reflexivity |]. reflexivity.
  - intros [| x s]; simpl; reflexivity.
  - intros [| x [| y s]]; simpl; try reflexivity;
      rewrite (IH Ha b b'); reflexivity.
Qed.

(** Text put in front of the subject keeps every match of a pattern
    without [^]. *)
Lemma search_from_shift ts :
  anchored_at_start ts = false ->
  forall front b b' s,
    search_from ts b s = true -> search_from ts b' (front ++ s) = true.
Proof.
  intros Ha front. induction front as [| x front IH]; intros b b' s Hs.
  - simpl. destruct s as [| y s].
    + simpl in *. rewrite orb_false_r in *.
      rewrite (match_here_unanchored ts Ha b' b). exact Hs.
    + rewrite search_from_tail in *.
      rewrite (match_here_unanchored ts Ha b' b). exact Hs.
  - change ((x :: front) ++ s) with (x :: front ++ s).
    rewrite search_from_tail, (IH b false s Hs). apply orb_true_r.
Qed.



End ReFacts.

Lemma last_of_cons {A} (x : A) (l : list A) :
  last_of (x :: l) = match last_of l with Some y => Some y | None => Some x end.
Proof.
  unfold last_of. simpl. destruct (rev l) as [| y l']; reflexivity.
Qed.

Section Taxonomy.
Context {R : Regex}.

(** The inner loop leaves the carried value alone when no pattern is found. *)
Lemma for_mapping_in_carry mappings msg error_type :
  for_mapping_in mappings msg error_type =
  match for_mapping_in mappings msg None with
  | Some k => Some k
  | None => error_type
  end.
Proof.
  induction mappings as [| m rest IH]; simpl; [reflexivity |].
  destruct (re_search (regex_pattern m) msg); [reflexivity | exact IH].
Qed.

Lemma classify_from failed :
  forall error_type,
  fold_left
    (fun error_type '(deob, msg) =>
       for_mapping_in (regex_exception_mappings deob) msg error_type)
    failed error_type
  = match last_of (kinds_of failed) with
    | Some k => Some k
    | None => error_type
    end.
Proof.
  induction failed as [| [deob msg] failed IH]; intros error_type;
    [reflexivity |].
  cbn [fold_left]. rewrite IH, for_mapping_in_carry.
  unfold kinds_of. cbn [flat_map]. fold (kinds_of failed).
  unfold kind_of at 1. cbn [fst snd].
  destruct (for_mapping_in (regex_exception_mappings deob) msg None) as [k |].
  - cbn [app]. rewrite last_of_cons.
    destruct (last_of (kinds_of failed)); reflexivity.
  - reflexivity.
Qed.

(** C5. For every adapter and every text, the adapter's own patterns are
    tried in the order in which they are declared and the kind is that of
    the first pattern that [search] finds in the text, or none when no
    pattern is found.  On the fragment of [Re], [search] finds a pattern
    exactly when its tokens match at some position of the text. *)
Theorem first_declared_match_decides :
  (forall deob msg,
     kind_of (deob, msg)
     = option_map fail_type
         (find (fun mapping => re_search (regex_pattern mapping) msg)
            (regex_exception_mappings deob)))
  /\ (forall pattern msg,
        @re_search fragment_regex pattern msg = true <->
        exists ts before rest,
          Re.compile pattern = Some ts
          /\ list_ascii_of_string msg = before ++ rest
          /\ Re.match_here ts
               (match before with [] => true | _ => false end) rest = true).
Proof.
  split.
  - intros deob msg. unfold kind_of. cbn [fst snd].
    induction (regex_exception_mappings deob) as [| m rest IH];
      simpl; [reflexivity |].
    destruct (re_search (regex_pattern m) msg); [reflexivity | exact IH].
  - intros pattern msg. cbn [re_search fragment_regex]. unfold Re.search.
    destruct (Re.compile pattern) as [ts |].
    + rewrite ReFacts.search_from_anywhere. split.
      * intros (before & rest & Heq & Hm). exists ts, before, rest.
        repeat split; assumption.
      * intros (ts' & before & rest & Hc & Heq & Hm).
        inversion Hc; subst ts'. exists before, rest. split; assumption.
    + split; [discriminate |].
      intros (ts & _ & _ & Hc & _). discriminate.
Qed.


End Taxonomy.

(* ================================================================== *)
(** ** Failures of a single invocation *)

Section Invocation.
Context {H : Host} {R : Regex}.

(** C8. When the process of a selected adapter outlives the timeout of 60
    seconds, [deobfuscate] returns the failure [Timed out while
    deobfuscating.]; the loop body records the adapter as failed, leaves
    the candidate path and the success list as they were, and the loop goes
    on with the adapters that remain. *)
Theorem timed_out_adapter_fails_without_advancing cfg deob rest l r w' :
  contains cfg (key deob) = true ->
  subprocess_run
    (commandList (invocation deob (_get_path_to_cmd deob) (newest_file_path l)))
    (stdin (invocation deob (_get_path_to_cmd deob) (newest_file_path l)))
    60 (world r)
  = (Py.Raise Py.TimeoutExpired, w') ->
  deobfuscate deob (newest_file_path l) (world r)
  = (Py.Return (None, Some "Timed out while deobfuscating."), w')
  /\ exists l' r',
       loop_body cfg deob l r = (Py.Return l', r')
       /\ world r' = w'
       /\ newest_file_path l' = newest_file_path l
       /\ successful_deobs l' = successful_deobs l
       /\ failed_deobs l'
          = failed_deobs l
            ++ [(deob, composed_message deob "Timed out while deobfuscating.")]
       /\ for_deob_in (deob :: rest) cfg l r = for_deob_in rest cfg l' r'.
Proof.
  intros Hc Hrun.
  assert (Hd : deobfuscate deob (newest_file_path l) (world r)
               = (Py.Return (None, Some "Timed out while deobfuscating."), w')).
  { unfold deobfuscate.
    rewrite (_deobfuscate_run_raises _ _ _ _ _ _ Hrun). reflexivity. }
  split; [exact Hd |].
  eexists; eexists. split; [apply (loop_body_failure _ _ _ _ _ _ Hc Hd) |].
  repeat split.
  rewrite for_deob_in_cons, (loop_body_failure _ _ _ _ _ _ Hc Hd).
  reflexivity.
Qed.

(** C3, as the code has it.  When the process exits with status zero and
    the expected path does not exist, [_deobfuscate] never reaches the
    [return] of the message [Failed to produce the expected output file]:
    the listing of the directory either raises, which the [except] clauses
    turn into the generic [OSError] (or timed-out) failure, or it succeeds
    and the unary plus raises [TypeError].  No success is returned. *)
Theorem missing_output_is_not_reported args expected input w res w' :
  subprocess_run args input 60 w = (Py.Return res, w') ->
  returncode res = 0%Z ->
  os_path_exists expected w' = false ->
  _deobfuscate args expected input w
  = match os_listdir (PosixPath.basename expected) w' with
    | Py.Return _ => (Py.Raise Py.TypeError, w')
    | Py.Raise e => handled e w'
    end
  /\ (forall result,
        fst (_deobfuscate args expected input w) = Py.Return result ->
        result = (None, Some "OSError occured while deobfuscating.")
        \/ result = (None, Some "Timed out while deobfuscating."))
  /\ (forall tail,
        fst (_deobfuscate args expected input w)
        <> Py.Return
             (None,
              Some ("Failed to produce the expected output file "
                    ++ tail)%string)).
Proof.
  intros Hrun Hcode Hex.
  pose proof (_deobfuscate_missing _ _ _ _ _ _ Hrun Hcode Hex) as Hm.
  assert (Hres : forall result,
            fst (_deobfuscate args expected input w) = Py.Return result ->
            result = (None, Some "OSError occured while deobfuscating.")
            \/ result = (None, Some "Timed out while deobfuscating.")).
  { intros result. rewrite Hm.
    destruct (os_listdir (PosixPath.basename expected) w') as [names | e];
      [discriminate |].
    unfold handled.
    destruct (Py.is_OSError e); [| destruct (Py.is_TimeoutExpired e)];
      cbn [fst]; intros Heq; inversion Heq; auto. }
  split; [exact Hm |]. split; [exact Hres |].
  intros tail Heq. destruct (Hres _ Heq) as [Hr | Hr]; discriminate.
Qed.

(** C9, as the code has it.  When the process exits with status zero, the
    expected path does not exist and the directory named like the artifact
    can be listed, [_deobfuscate] does not return a result: the
    [TypeError] of the unary plus is caught by neither [except] clause and
    leaves the process runner, and the adapter's [deobfuscate] with it. *)
Theorem missing_output_raises_type_error args expected input w res w' names :
  subprocess_run args input 60 w = (Py.Return res, w') ->
  returncode res = 0%Z ->
  os_path_exists expected w' = false ->
  os_listdir (PosixPath.basename expected) w' = Py.Return names ->
  _deobfuscate args expected input w = (Py.Raise Py.TypeError, w').
Proof.
  intros Hrun Hcode Hex Hls.
  rewrite (_deobfuscate_missing _ _ _ _ _ _ Hrun Hcode Hex), Hls.
  reflexivity.
Qed.

End Invocation.

(* ================================================================== *)
(** ** The adapters of the table *)

Lemma append_empty_r (s : string) : (s ++ EmptyString)%string = s.
Proof. induction s as [| c s IH]; simpl; [| rewrite IH]; reflexivity. Qed.

Section Adapters.
Context {H : Host}.

(** C7, as the code has it.  The Static String Decryptor adapter starts
    [mono] with the path of its executable and nothing else, writes the
    input path to the process's standard input, and expects the artifact
    at the input path followed by [Cleaned.exe]: the suffix comes after the
    whole path, extension included.  The two other adapters put the input
    path on the command line. *)
Theorem decryptor_reads_stdin_and_appends_suffix in_file_path :
  deobfuscate ConfuserExStaticStringDecryptorDeobfuscator in_file_path
  = _deobfuscate
      ["mono"; _get_path_to_cmd ConfuserExStaticStringDecryptorDeobfuscator]
      (in_file_path ++ "Cleaned.exe")%string
      (Some in_file_path)
  /\ In in_file_path
       (commandList
          (invocation UnscramblerDeobfuscator
             (_get_path_to_cmd UnscramblerDeobfuscator) in_file_path))
  /\ In in_file_path
       (commandList
          (invocation De4dotCexDeobfuscator
             (_get_path_to_cmd De4dotCexDeobfuscator) in_file_path)).
Proof.
  split; [reflexivity |]. split.
  - cbn [invocation UnscramblerDeobfuscator].
    destruct (PosixPath.splitext in_file_path). simpl. auto.
  - simpl. auto.
Qed.

End Adapters.

(** C7, as the specification states it, fails: no fixed suffix placed
    before the extension gives the names that the adapter expects.  The
    paths [a] and [a.b] would need two different suffixes. *)
Lemma decryptor_suffix_is_not_before_the_extension :
  ~ exists suffix,
      forall path_to_cmd in_file_path,
        expected_out_file_loc
          (invocation ConfuserExStaticStringDecryptorDeobfuscator
             path_to_cmd in_file_path)
        = suffix_before_extension suffix in_file_path.
Proof.
  intros [suffix Hs].
  pose proof (Hs EmptyString "a"%string) as H1.
  pose proof (Hs EmptyString "a.b"%string) as H2.
  unfold suffix_before_extension in H1, H2.
  change (PosixPath.splitext "a") with ("a"%string, EmptyString) in H1.
  change (PosixPath.splitext "a.b") with ("a"%string, ".b"%string) in H2.
  cbn [invocation expected_out_file_loc
       ConfuserExStaticStringDecryptorDeobfuscator] in H1, H2.
  simpl in H1, H2.
  injection H1 as H1. injection H2 as H2.
  rewrite append_empty_r in H1. subst suffix. discriminate.
Qed.

(* ================================================================== *)
(** ** The text that classification reads *)

Lemma composed_message_chars deob raw :
  list_ascii_of_string (composed_message deob raw)
  = (list_ascii_of_string "Deobfuscator "
     ++ list_ascii_of_string (display_name deob)
     ++ list_ascii_of_string " failed with error: ")
    ++ list_ascii_of_string raw.
Proof.
  unfold composed_message.
  rewrite !list_ascii_of_string_app, <- !app_assoc. reflexivity.
Qed.

Section ComposedText.
Context {H : Host} {R : Regex}.

Lemma contains_own_key deob : contains [key deob] (key deob) = true.
Proof. unfold contains. simpl. rewrite String.eqb_refl. reflexivity. Qed.


End ComposedText.


(* ================================================================== *)
(** ** The code on concrete runs *)

Module Runs.
Import Scenario Cases.

(** C2, as the code has it.  With the keys [de4dotcex], [unscrambler]
    configured in that order, [execute] calls Unscrambler first and
    de4dot-cex second: the loop walks [AVAILABLE_DEOBFUSCATORS] and uses
    the configured list only to decide membership, so the order of the
    configured list is not the order of execution.  The adapter whose key
    is absent is not called. *)
Theorem execute_runs_in_table_order :
  reversed_cfg = ["de4dotcex"; "unscrambler"]%string
  /\ called
       (snd (@execute rejecting_host fragment_regex reversed_cfg
               "/data/sample.exe" (@start rejecting_host [])))
     = ["unscrambler"; "de4dotcex"]%string.
Proof. split; reflexivity. Qed.

Lemma timed_out_adapter_witness :
  contains default_deobfuscators (key UnscramblerDeobfuscator) = true
  /\ @deobfuscate slow_host UnscramblerDeobfuscator "/tmp/run/sample.exe"
       ["/tmp/run/sample.exe"%string]
     = (Py.Return (None, Some "Timed out while deobfuscating."%string),
        ["/tmp/run/sample.exe"%string]).
Proof.
  split; [reflexivity |].
  apply (@timed_out_adapter_fails_without_advancing slow_host
           default_deobfuscators UnscramblerDeobfuscator
           [ConfuserExStaticStringDecryptorDeobfuscator; De4dotCexDeobfuscator]
           (initial_locals "/tmp/run/sample.exe")
           (@start slow_host ["/tmp/run/sample.exe"%string])
           ["/tmp/run/sample.exe"%string]);
    reflexivity.
Defined.

Lemma missing_output_witness :
  @os_path_exists plain_host "/tmp/run/sample.exeCleaned.exe"
    ["/tmp/run/sample.exe"%string] = false
  /\ @_deobfuscate plain_host ["mono"; "/opt/deob/bin/tool.exe"]%string
       "/tmp/run/sample.exeCleaned.exe" (Some "/tmp/run/sample.exe"%string)
       ["/tmp/run/sample.exe"%string]
     = (Py.Return (None, Some "OSError occured while deobfuscating."%string),
        ["/tmp/run/sample.exe"%string]).
Proof.
  split; [reflexivity |].
  apply (@missing_output_is_not_reported plain_host
           ["mono"; "/opt/deob/bin/tool.exe"]%string
           "/tmp/run/sample.exeCleaned.exe"
           (Some "/tmp/run/sample.exe"%string)
           ["/tmp/run/sample.exe"%string]
           {| returncode := 0; stdout := "done"; stderr := EmptyString |}
           ["/tmp/run/sample.exe"%string]);
    reflexivity.
Defined.

Lemma type_error_witness :
  @os_listdir shadowed_host "sample.exeCleaned.exe"
    ["/tmp/run/sample.exe"%string] = Py.Return []
  /\ @_deobfuscate shadowed_host ["mono"; "/opt/deob/bin/tool.exe"]%string
       "/tmp/run/sample.exeCleaned.exe" (Some "/tmp/run/sample.exe"%string)
       ["/tmp/run/sample.exe"%string]
     = (Py.Raise Py.TypeError, ["/tmp/run/sample.exe"%string]).
Proof.
  split; [reflexivity |].
  apply (@missing_output_raises_type_error shadowed_host
           ["mono"; "/opt/deob/bin/tool.exe"]%string
           "/tmp/run/sample.exeCleaned.exe"
           (Some "/tmp/run/sample.exe"%string)
           ["/tmp/run/sample.exe"%string]
           {| returncode := 0; stdout := "done"; stderr := EmptyString |}
           ["/tmp/run/sample.exe"%string] []);
    reflexivity.
Defined.

(** The exception leaves [execute] as well. *)
Example type_error_leaves_execute :
  fst (@execute shadowed_host fragment_regex default_deobfuscators
         "/data/sample.exe" (@start shadowed_host []))
  = Py.Raise Py.TypeError.
Proof. reflexivity. Qed.



(** Three adapters configured, only the last succeeds. *)
Example only_the_last_succeeds :
  fst (@execute slow_host fragment_regex default_deobfuscators
         "/data/sample.exe" (@start slow_host []))
  = Py.Return (ChildAdded "de4dot-cex" "/tmp/run/sample.exedeob-cex").
Proof. reflexivity. Qed.

(** The first adapter fails, the second and the third succeed: the third
    works on the artifact of the second. *)
Example second_and_third_succeed :
  (let (outcome, r) :=
     @execute chaining_host fragment_regex default_deobfuscators
       "/data/sample.exe" (@start chaining_host []) in
   (outcome, map call_input (calls r)))
  = (Py.Return
       (ChildAdded "ConfuserEx-Static-String-Decryptor,de4dot-cex"
          "/tmp/run/sample.exeCleaned.exedeob-cex"),
     [ "/tmp/run/sample.exe"; "/tmp/run/sample.exe";
       "/tmp/run/sample.exeCleaned.exe" ]%string).
Proof. reflexivity. Qed.

(** Two failed adapters give different kinds: the later one decides. *)
Example later_failure_decides :
  fst (@execute mixed_host fragment_regex default_deobfuscators
         "/data/sample.exe" (@start mixed_host []))
  = Py.Return (Malformed "Dotnetfile is shorter than the header specifies.").
Proof. reflexivity. Qed.

(** All three adapters fail, the last with the text of an invalid image. *)
Example all_fail_as_not_dotnet :
  fst (@execute rejecting_host fragment_regex default_deobfuscators
         "/data/sample.exe" (@start rejecting_host []))
  = Py.Return
      (OptOut "Deobfuscators detect file as not a valid dotnet file.").
Proof. reflexivity. Qed.

(** No key configured: nothing is called. *)
Example nothing_configured :
  @execute rejecting_host fragment_regex [] "/data/sample.exe"
    (@start rejecting_host [])
  = (Py.Return
       (CompletedEmpty "no-deobfuscation-processed"
          "Could not run any of the deobfuscators."),
     @start rejecting_host ["/tmp/run/sample.exe"%string]).
Proof. reflexivity. Qed.

(** Every pattern of the table is in the fragment of [Re] and has no [^]. *)
Example table_patterns_in_fragment :
  forallb
    (fun deob =>
       forallb
         (fun m => match Re.compile (regex_pattern m) with
                   | Some ts => negb (Re.anchored_at_start ts)
                   | None => false
                   end)
         (regex_exception_mappings deob))
    AVAILABLE_DEOBFUSCATORS = true.
Proof. reflexivity. Qed.

End Runs.

(* ================================================================== *)
(** ** Further properties of the process runner *)

Section RunnerFurther.
Context {H : Host}.

Lemma handled_not_success e w out err w' :
  handled e w <> (Py.Return (Some out, err), w').
Proof.
  unfold handled.
  destruct (Py.is_OSError e); [| destruct (Py.is_TimeoutExpired e)];
    discriminate.
Qed.

Lemma _deobfuscate_success_inv args expected input w out err w' :
  _deobfuscate args expected input w = (Py.Return (Some out, err), w') ->
  exists res,
    subprocess_run args input 60 w = (Py.Return res, w')
    /\ returncode res = 0%Z
    /\ os_path_exists expected w' = true
    /\ out = expected
    /\ err = None.
Proof.
  intros Hd.
  destruct (subprocess_run args input 60 w) as [[res | e] w1] eqn:Hrun.
  - destruct (Z.eq_dec (returncode res) 0) as [Hz | Hnz].
    + destruct (os_path_exists expected w1) eqn:Hex.
      * rewrite (_deobfuscate_produced _ _ _ _ _ _ Hrun Hz Hex) in Hd.
        inversion Hd; subst. exists res. auto.
      * rewrite (_deobfuscate_missing _ _ _ _ _ _ Hrun Hz Hex) in Hd.
        destruct (os_listdir (PosixPath.basename expected) w1);
          [discriminate | destruct (handled_not_success _ _ _ _ _ Hd)].
    + rewrite (_deobfuscate_nonzero _ _ _ _ _ _ Hrun Hnz) in Hd.
      discriminate.
  - rewrite (_deobfuscate_run_raises _ expected _ _ _ _ Hrun) in Hd.
    destruct (handled_not_success _ _ _ _ _ Hd).
Qed.

Lemma deobfuscate_success deob p w out err w' :
  deobfuscate deob p w = (Py.Return (Some out, err), w') ->
  out = expected_for deob p /\ err = None
  /\ os_path_exists (expected_for deob p) w' = true.
Proof.
  unfold deobfuscate, expected_for. intros Hd.
  apply _deobfuscate_success_inv in Hd.
  destruct Hd as (res & _ & _ & Hex & Hout & Herr). auto.
Qed.

(** X1. [_deobfuscate] returns an artifact exactly when the process exits
    with status zero and the expected path exists afterwards; the artifact
    is then the expected path itself and no error text comes with it.  A
    non-zero status is a failure even when the expected path exists. *)
Theorem success_needs_clean_exit_and_artifact
    args expected input w out err w' :
  _deobfuscate args expected input w = (Py.Return (Some out, err), w') <->
  exists res,
    subprocess_run args input 60 w = (Py.Return res, w')
    /\ returncode res = 0%Z
    /\ os_path_exists expected w' = true
    /\ out = expected
    /\ err = None.
Proof.
  split; [apply _deobfuscate_success_inv |].
  intros (res & Hrun & Hz & Hex & -> & ->).
  apply (_deobfuscate_produced _ _ _ _ _ _ Hrun Hz Hex).
Qed.

End RunnerFurther.

(* ================================================================== *)
(** ** Further properties of the loop *)

Section LoopFurther.
Context {H : Host} {R : Regex}.

(** The three ways through the body of the loop. *)
Lemma loop_body_cases cfg deob l r :
  (contains cfg (key deob) = false
   /\ loop_body cfg deob l r = (Py.Return l, r))
  \/ (contains cfg (key deob) = true
      /\ exists a w l',
           deobfuscate deob (newest_file_path l) (world r) = (Py.Return a, w)
           /\ locals_after (record_call deob l (Py.Return a)) l = Some l'
           /\ loop_body cfg deob l r
              = (Py.Return l',
                 after_call r w (record_call deob l (Py.Return a))))
  \/ (contains cfg (key deob) = true
      /\ exists e w,
           deobfuscate deob (newest_file_path l) (world r) = (Py.Raise e, w)
           /\ loop_body cfg deob l r
              = (Py.Raise e, after_call r w (record_call deob l (Py.Raise e)))).
Proof.
  destruct (contains cfg (key deob)) eqn:Hc.
  - right.
    destruct (deobfuscate deob (newest_file_path l) (world r))
      as [[[[out |] err] | e] w] eqn:Hd.
    + left. split; [reflexivity |].
      exists (Some out, err), w. eexists.
      split; [reflexivity |]. split; [reflexivity |].
      apply (loop_body_success _ _ _ _ _ _ _ Hc Hd).
    + destruct err as [raw |].
      2:{ apply deobfuscate_one_sided in Hd.
          destruct Hd as [[o Ho] | [m Hm]]; discriminate. }
      left. split; [reflexivity |].
      exists (None, Some raw), w. eexists.
      split; [reflexivity |]. split; [reflexivity |].
      apply (loop_body_failure _ _ _ _ _ _ Hc Hd).
    + right. split; [reflexivity |]. exists e, w.
      split; [reflexivity | apply (loop_body_raise _ _ _ _ _ _ Hc Hd)].
  - left. split; [reflexivity | apply (loop_body_skip _ _ _ _ Hc)].
Qed.

Lemma record_call_genuine deob l a w (r : Run) :
  deobfuscate deob (newest_file_path l) (world r) = (a, w) ->
  genuine (record_call deob l a).
Proof. intros Hd. exists (world r), w. exact Hd. Qed.

(** The calls of a run, against the table: they are those of a prefix of
    the selected adapters, each what [deobfuscate] gave. *)
Lemma for_deob_in_calls available cfg :
  forall l r,
  exists cs rest,
    calls (snd (for_deob_in available cfg l r)) = calls r ++ cs
    /\ selected available cfg = map call_tool cs ++ rest
    /\ Forall genuine cs
    /\ match fst (for_deob_in available cfg l r) with
       | Py.Return _ => rest = []
       | Py.Raise _ => True
       end.
Proof.
  induction available as [| deob rest IH]; intros l r.
  - exists [], []. simpl. rewrite app_nil_r. auto.
  - rewrite for_deob_in_cons.
    destruct (loop_body_cases cfg deob l r)
      as [[Hc Hb] | [(Hc & a & w & l' & Hd & _ & Hb)
                    | (Hc & e & w & Hd & Hb)]];
      rewrite Hb.
    + rewrite (selected_cons_out _ _ _ Hc). apply IH.
    + destruct (IH l' (after_call r w (record_call deob l (Py.Return a))))
        as (cs & rest' & Hcalls & Hsel & Hgen & Hret).
      exists (record_call deob l (Py.Return a) :: cs), rest'.
      rewrite (selected_cons_in _ _ _ Hc), Hcalls, Hsel.
      unfold after_call; cbn [calls]. rewrite <- app_assoc.
      repeat split; [| exact Hret].
      constructor; [eapply record_call_genuine; exact Hd | exact Hgen].
    + exists [record_call deob l (Py.Raise e)], (selected rest cfg).
      rewrite (selected_cons_in _ _ _ Hc). cbn [fst snd].
      repeat split.
      constructor; [eapply record_call_genuine; exact Hd | constructor].
Qed.

(** X2. In every run of the loop, whether it returns or raises, the
    adapters that were called are an initial part of the selected adapters
    in the order of the table: no adapter is called twice, none is called
    out of turn, and there are at most as many calls as adapters in the
    table.  When the loop returns, every selected adapter was called. *)
Theorem calls_are_an_initial_part_of_the_selection available cfg l r :
  exists cs rest,
    calls (snd (for_deob_in available cfg l r)) = calls r ++ cs
    /\ selected available cfg = map call_tool cs ++ rest
    /\ (List.length cs <= List.length available)%nat
    /\ match fst (for_deob_in available cfg l r) with
       | Py.Return _ => rest = []
       | Py.Raise _ => True
       end.
Proof.
  destruct (for_deob_in_calls available cfg l r)
    as (cs & rest & Hcalls & Hsel & _ & Hret).
  exists cs, rest. repeat split; try assumption.
  assert (Hlen : (List.length (map call_tool cs ++ rest)
                  <= List.length available)%nat).
  { rewrite <- Hsel. unfold selected. apply filter_length_le. }
  rewrite length_app, length_map in Hlen. lia.
Qed.

(** X3. An exception of a selected adapter's process that is neither an
    [OSError] nor a [TimeoutExpired] is not turned into a failure: it
    leaves the loop at that adapter, and the adapters after it are not
    called. *)
Theorem unexpected_exception_stops_the_run cfg deob rest l r e w' :
  contains cfg (key deob) = true ->
  started deob (newest_file_path l) (world r) = (Py.Raise e, w') ->
  Py.is_OSError e = false ->
  Py.is_TimeoutExpired e = false ->
  for_deob_in (deob :: rest) cfg l r
  = (Py.Raise e, after_call r w' (record_call deob l (Py.Raise e))).
Proof.
  intros Hc Hrun Hos Hto.
  assert (Hd : deobfuscate deob (newest_file_path l) (world r)
               = (Py.Raise e, w')).
  { unfold deobfuscate. unfold started in Hrun.
    rewrite (_deobfuscate_run_raises _ _ _ _ _ _ Hrun).
    unfold handled. rewrite Hos, Hto. reflexivity. }
  rewrite for_deob_in_cons, (loop_body_raise _ _ _ _ _ _ Hc Hd).
  reflexivity.
Qed.

Lemma loop_body_same_selection cfg cfg' deob :
  contains cfg (key deob) = contains cfg' (key deob) ->
  forall l r, loop_body cfg deob l r = loop_body cfg' deob l r.
Proof. intros Hc l r. unfold loop_body. rewrite Hc. reflexivity. Qed.

Lemma for_deob_in_same_selection available cfg cfg' :
  same_selection available cfg cfg' ->
  forall l r, for_deob_in available cfg l r = for_deob_in available cfg' l r.
Proof.
  induction available as [| deob rest IH]; intros Hsame l r; [reflexivity |].
  rewrite !for_deob_in_cons.
  rewrite (loop_body_same_selection cfg cfg' deob)
    by (apply Hsame; left; reflexivity).
  destruct (loop_body cfg' deob l r) as [[l' | e] r']; [| reflexivity].
  apply IH. intros d Hin. apply Hsame. right. exact Hin.
Qed.

(** X5. Only the set of configured keys that name adapters of the table
    matters: two configured lists that hold the same keys of the table, in
    whatever order, with repetitions or with keys of no adapter, make
    [execute] behave identically. *)
Theorem only_membership_of_keys_matters cfg cfg' in_file_path r :
  same_selection AVAILABLE_DEOBFUSCATORS cfg cfg' ->
  execute cfg in_file_path r = execute cfg' in_file_path r.
Proof.
  intros Hsame. unfold execute, Py.bind.
  destruct (precheck in_file_path r) as [[[state |] | e] r1]; try reflexivity.
  unfold with_temporary_directory.
  destruct (mkdtemp (world r1)) as [cur_dir w].
  destruct (in_world
              (shutil_copy in_file_path
                 (PosixPath.join cur_dir [PosixPath.basename in_file_path]))
              {| world := w; calls := calls r1 |}) as [[u | e] r2];
    [| reflexivity].
  unfold run_deobfuscators, Py.bind.
  rewrite (for_deob_in_same_selection _ _ _ Hsame). reflexivity.
Qed.

End LoopFurther.

(* ================================================================== *)
(** ** Further properties of the classification *)

Module ReMore.
Import Re.

(** Without [$] a match survives text added after the subject. *)
Lemma match_here_extend ts :
  anchored_at_end ts = false ->
  forall b s tail,
    match_here ts b s = true -> match_here ts b (s ++ tail) = true.
Proof.
  induction ts as [| t ts IH]; intros He b s tail Hm; [reflexivity |].
  destruct t; simpl in He; try discriminate.
  - destruct s as [| x s]; simpl in *; [discriminate |].
    apply andb_true_iff in Hm. destruct Hm as [Hx Hm].
    rewrite Hx, (IH He _ _ _ Hm). reflexivity.
  - destruct s as [| x s]; simpl in *; [discriminate |].
    apply andb_true_iff in Hm. destruct Hm as [Hx Hm].
    rewrite Hx, (IH He _ _ _ Hm). reflexivity.
  - simpl in *. apply andb_true_iff in Hm. destruct Hm as [Hb Hm].
    rewrite (IH He _ _ _ Hm), Hb. reflexivity.
Qed.

Lemma search_from_extend ts :
  anchored_at_end ts = false ->
  forall s b tail,
    search_from ts b s = true -> search_from ts b (s ++ tail) = true.
Proof.
  intros He s. induction s as [| x s IH]; intros b tail Hs.
  - simpl in Hs. rewrite orb_false_r in Hs.
    pose proof (match_here_extend ts He b [] tail Hs) as Hm.
    simpl in Hm. destruct tail as [| y tail]; simpl; rewrite Hm; reflexivity.
  - change ((x :: s) ++ tail) with (x :: s ++ tail).
    rewrite ReFacts.search_from_tail in *.
    apply orb_true_iff in Hs. destruct Hs as [Hm | Hs].
    + pose proof (match_here_extend ts He b (x :: s) tail Hm) as Hm'.
      change ((x :: s) ++ tail) with (x :: s ++ tail) in Hm'.
      rewrite Hm'. reflexivity.
    + rewrite (IH false tail Hs). apply orb_true_r.
Qed.

(** A pattern with neither anchor that is found in a text is found in any
    text that contains it. *)
Lemma search_within pattern ts front s tail :
  compile pattern = Some ts ->
  anchored_at_start ts = false ->
  anchored_at_end ts = false ->
  search pattern s = true ->
  search pattern (front ++ s ++ tail)%string = true.
Proof.
  unfold search. intros Hc Hb He Hs. rewrite Hc in *.
  rewrite !list_ascii_of_string_app.
  apply (ReFacts.search_from_shift ts Hb _ true true).
  apply (search_from_extend ts He _ true). exact Hs.
Qed.

End ReMore.

Lemma string_app_assoc (a b c : string) :
  ((a ++ b) ++ c)%string = (a ++ b ++ c)%string.
Proof. induction a as [| x a IH]; simpl; [| rewrite IH]; reflexivity. Qed.

Lemma kinds_of_app {R : Regex} (earlier later : list (Deobfuscator * string)) :
  kinds_of (earlier ++ later) = kinds_of earlier ++ kinds_of later.
Proof. unfold kinds_of. apply flat_map_app. Qed.

Lemma classify_failures_last {R : Regex} failed :
  classify_failures failed = last_of (kinds_of failed).
Proof.
  unfold classify_failures. rewrite classify_from.
  destruct (last_of (kinds_of failed)); reflexivity.
Qed.

(** A pattern of an adapter, without [^], that is found in the raw error:
    the composed text has a kind. *)
Lemma found_in_raw_has_kind deob raw mapping ts :
  In mapping (regex_exception_mappings deob) ->
  Re.compile (regex_pattern mapping) = Some ts ->
  Re.anchored_at_start ts = false ->
  Re.search (regex_pattern mapping) raw = true ->
  exists k, @kind_of fragment_regex (deob, composed_message deob raw) = Some k.
Proof.
  intros Hin Hc Hun Hs. unfold kind_of. cbn [fst snd].
  destruct (@for_mapping_in fragment_regex (regex_exception_mappings deob)
              (composed_message deob raw) None) as [k |] eqn:Hk;
    [exists k; reflexivity | exfalso].
  revert Hin Hk.
  induction (regex_exception_mappings deob) as [| m rest IH];
    intros Hin Hk; [destruct Hin |].
  cbn [for_mapping_in] in Hk.
  destruct (@re_search fragment_regex (regex_pattern m)
              (composed_message deob raw)) eqn:Hm; [discriminate |].
  destruct Hin as [-> | Hin]; [| exact (IH Hin Hk)].
  cbn [re_search fragment_regex] in Hm. unfold Re.search in Hm, Hs.
  rewrite Hc in Hm, Hs. rewrite composed_message_chars in Hm.
  rewrite (ReFacts.search_from_shift ts Hun _ true true _ Hs) in Hm.
  discriminate.
Qed.

Section TaxonomyFurther.
Context {H : Host}.

(** X6. The classification of failures listed one after the other is that
    of the later ones when one of them has a kind, and that of the earlier
    ones otherwise. *)
Theorem later_failures_override {R : Regex} earlier later :
  classify_failures (earlier ++ later)
  = match classify_failures later with
    | Some k => Some k
    | None => classify_failures earlier
    end.
Proof.
  rewrite (classify_failures_last later).
  unfold classify_failures. rewrite fold_left_app, classify_from.
  reflexivity.
Qed.

(** A run of one selected adapter whose call fails with [raw]. *)
Lemma single_failure_run {R : Regex} deob scratch r raw w' :
  deobfuscate deob scratch (world r) = (Py.Return (None, Some raw), w') ->
  run_deobfuscators [deob] [key deob] scratch r
  = (Py.Return
       (outcome_of_error_type (kind_of (deob, composed_message deob raw))),
     after_call r w'
       (record_call deob (initial_locals scratch)
          (Py.Return (None, Some raw)))).
Proof.
  intros Hd. unfold run_deobfuscators, Py.bind.
  rewrite for_deob_in_cons.
  rewrite (loop_body_failure [key deob] deob (initial_locals scratch) r
             raw w' (contains_own_key deob) Hd).
  reflexivity.
Qed.

(** X7. When the process of an adapter exits with a non-zero status and a
    pattern of that adapter, without [^] or [$], is found in what the
    process wrote to its standard error or to its standard output, the run
    of that adapter alone ends with the outcome of a kind: an opt-out or a
    malformed flag, not the generic empty completion. *)
Theorem diagnosed_exit_is_classified deob scratch r res w' mapping ts :
  started deob scratch (world r) = (Py.Return res, w') ->
  returncode res <> 0%Z ->
  In mapping (regex_exception_mappings deob) ->
  Re.compile (regex_pattern mapping) = Some ts ->
  Re.anchored_at_start ts = false ->
  anchored_at_end ts = false ->
  Re.search (regex_pattern mapping) (stderr res) = true
  \/ Re.search (regex_pattern mapping) (stdout res) = true ->
  exists k,
    fst (@run_deobfuscators H fragment_regex [deob] [key deob] scratch r)
    = Py.Return (outcome_of_error_type (Some k)).
Proof.
  intros Hrun Hcode Hin Hc Hb He Hfound.
  assert (Hd : deobfuscate deob scratch (world r)
               = (Py.Return (None, Some (nonzero_exit_message res)), w')).
  { unfold deobfuscate. apply (_deobfuscate_nonzero _ _ _ _ _ _ Hrun Hcode). }
  assert (Hraw : Re.search (regex_pattern mapping) (nonzero_exit_message res)
                 = true).
  { unfold nonzero_exit_message. destruct Hfound as [Hs | Hs].
    - apply (ReMore.search_within _ ts _ _ _ Hc Hb He Hs).
    - replace ("An unexpected error occurred when deobfuscating. stderr "
               ++ stderr res ++ " stdout: " ++ stdout res ++ ".")%string
        with (("An unexpected error occurred when deobfuscating. stderr "
               ++ stderr res ++ " stdout: ") ++ stdout res ++ ".")%string
        by (rewrite !string_app_assoc; reflexivity).
      apply (ReMore.search_within _ ts _ _ _ Hc Hb He Hs). }
  destruct (found_in_raw_has_kind deob _ mapping ts Hin Hc Hb Hraw)
    as [k Hk].
  exists k. rewrite (single_failure_run _ _ _ _ _ Hd). cbn [fst].
  rewrite Hk. reflexivity.
Qed.

End TaxonomyFurther.

(* ================================================================== *)
(** ** Runs in which nothing starts, and what artifacts are *)

Section Orchestration.
Context {H : Host} {R : Regex}.

Lemma nothing_runs_call deob p w :
  nothing_runs ->
  exists w',
    deobfuscate deob p w
    = (Py.Return (None, Some "OSError occured while deobfuscating."), w')
    \/ deobfuscate deob p w
       = (Py.Return (None, Some "Timed out while deobfuscating."), w').
Proof.
  intros Hn. unfold deobfuscate.
  destruct (Hn (commandList (invocation deob (_get_path_to_cmd deob) p))
              (stdin (invocation deob (_get_path_to_cmd deob) p)) w)
    as (e & w' & Hrun & He).
  exists w'. rewrite (_deobfuscate_run_raises _ _ _ _ _ _ Hrun).
  unfold handled. destruct (Py.is_OSError e); [left; reflexivity |].
  simpl in He. rewrite He. right; reflexivity.
Qed.

Lemma undescribed_kinds deob raw :
  undescribed deob = true ->
  raw = "OSError occured while deobfuscating."%string
  \/ raw = "Timed out while deobfuscating."%string ->
  kinds_of [(deob, composed_message deob raw)] = [].
Proof.
  unfold undescribed, kinds_of. cbn [flat_map]. intros Hu [-> | ->];
    destruct (kind_of
                (deob, composed_message deob
                         "OSError occured while deobfuscating."));
    destruct (kind_of
                (deob, composed_message deob
                         "Timed out while deobfuscating."));
    try discriminate; reflexivity.
Qed.

Lemma nothing_runs_loop available cfg :
  nothing_runs ->
  forallb undescribed available = true ->
  forall l r,
    successful_deobs l = [] ->
    kinds_of (failed_deobs l) = [] ->
    exists l' r',
      for_deob_in available cfg l r = (Py.Return l', r')
      /\ successful_deobs l' = []
      /\ kinds_of (failed_deobs l') = [].
Proof.
  intros Hn. induction available as [| deob rest IH];
    intros Hall l r Hs Hk.
  - exists l, r. auto.
  - cbn [forallb] in Hall. apply andb_true_iff in Hall.
    destruct Hall as [Hu Hall]. rewrite for_deob_in_cons.
    destruct (contains cfg (key deob)) eqn:Hc.
    + destruct (nothing_runs_call deob (newest_file_path l) (world r) Hn)
        as [w' [Hd | Hd]];
        rewrite (loop_body_failure _ _ _ _ _ _ Hc Hd);
        apply (IH Hall); cbn [successful_deobs failed_deobs];
        try exact Hs;
        rewrite kinds_of_app, Hk, (undescribed_kinds deob _ Hu); auto.
    + rewrite (loop_body_skip _ _ _ _ Hc). apply (IH Hall); assumption.
Qed.

(** X8. When no process can be started or every process outlives the
    timeout, and the texts of those two failures have no kind for any
    adapter of the table (as is the case for the table of the repository),
    the run ends with the generic outcome [no-deobfuscation-processed]
    whatever keys are configured: such a host never makes a file opt out
    or be flagged as malformed. *)
Theorem unlaunchable_tools_give_the_generic_outcome
    available cfg scratch r :
  nothing_runs ->
  forallb undescribed available = true ->
  fst (run_deobfuscators available cfg scratch r)
  = Py.Return
      (CompletedEmpty "no-deobfuscation-processed"
         "Could not run any of the deobfuscators.").
Proof.
  intros Hn Hall.
  destruct (nothing_runs_loop available cfg Hn Hall (initial_locals scratch)
              r eq_refl eq_refl) as (l' & r' & Hrun & Hs & Hk).
  unfold run_deobfuscators, Py.bind. rewrite Hrun.
  unfold conclude. rewrite Hs, classify_failures_last, Hk. reflexivity.
Qed.

(** X9. Every artifact of a run is the path that its adapter expects for
    the candidate it received, which is the artifact of the last call
    that succeeded before it, or the scratch copy: the names of the
    artifacts are chained, each derived from the one before. *)
Theorem artifacts_are_the_expected_paths available cfg scratch r :
  exists cs,
    calls (snd (for_deob_in available cfg (initial_locals scratch) r))
    = calls r ++ cs
    /\ forall before c after out,
         cs = before ++ c :: after ->
         artifact c = Some out ->
         out = expected_for (call_tool c) (candidate_after scratch before)
         /\ call_result c = Py.Return (Some out, None).
Proof.
  destruct (for_deob_in_history available cfg (initial_locals scratch) r)
    as (cs & Hcalls & Hch & _).
  destruct (for_deob_in_calls available cfg (initial_locals scratch) r)
    as (cs' & rest & Hcalls' & _ & Hgen & _).
  rewrite Hcalls in Hcalls'. apply app_inv_head in Hcalls'. subst cs'.
  exists cs. split; [exact Hcalls |].
  intros before c after out Heq Hart.
  assert (Hin : In c cs) by (rewrite Heq; apply in_elt).
  rewrite Forall_forall in Hgen. destruct (Hgen c Hin) as (w & w' & Hd).
  unfold artifact in Hart.
  destruct (call_result c) as [[[o |] err] | e] eqn:Hres; try discriminate.
  injection Hart as ->.
  destruct (deobfuscate_success _ _ _ _ _ _ Hd) as (Hout & Herr & _).
  pose proof (Hch before c after Heq) as Hinput.
  cbn [initial_locals newest_file_path] in Hinput.
  rewrite <- Hinput. subst err. split; [exact Hout | reflexivity].
Qed.

End Orchestration.

(* ================================================================== *)
(** ** The names of the expected artifacts *)

Module StrFacts.
Import Str.

Lemma take_drop n : forall s, (take n s ++ drop n s)%string = s.
Proof.
  induction n as [| n IH]; intros [| c s]; simpl; try reflexivity.
  rewrite IH. reflexivity.
Qed.

Lemma length_app (a b : string) :
  String.length (a ++ b) = (String.length a + String.length b)%nat.
Proof. induction a as [| c a IH]; simpl; [| rewrite IH]; reflexivity. Qed.

Lemma get_drop n : forall s j, String.get j (drop n s) = String.get (n + j) s.
Proof.
  induction n as [| n IH]; intros s j; [reflexivity |].
  destruct s as [| c s]; [destruct j; reflexivity |].
  cbn [drop Nat.add String.get]. apply IH.
Qed.

Lemma drop_get n : forall s c,
  String.get n s = Some c -> exists rest, drop n s = String c rest.
Proof.
  induction n as [| n IH]; intros [| x s] c Hg; simpl in *; try discriminate.
  - injection Hg as ->. eexists; reflexivity.
  - apply IH. exact Hg.
Qed.

Lemma rfind_from_lower c s :
  forall i found, (found < i)%Z -> (found <= rfind_from c s i found)%Z.
Proof.
  induction s as [| x s IH]; intros i found Hlt; simpl; [lia |].
  destruct (Ascii.eqb x c).
  - pose proof (IH (i + 1)%Z i ltac:(lia)). lia.
  - apply IH. lia.
Qed.

(** The index found holds the character. *)
Lemma rfind_from_hit c s :
  forall i found,
    rfind_from c s i found = found
    \/ exists k,
         rfind_from c s i found = (i + Z.of_nat k)%Z
         /\ String.get k s = Some c.
Proof.
  induction s as [| x s IH]; intros i found; simpl; [left; reflexivity |].
  destruct (IH (i + 1)%Z (if Ascii.eqb x c then i else found))
    as [Hr | (k & Hr & Hg)].
  - rewrite Hr. destruct (Ascii.eqb_spec x c) as [-> | _];
      [| left; reflexivity].
    right. exists 0%nat. split; [lia | reflexivity].
  - right. exists (S k). split; [lia | exact Hg].
Qed.

(** No later index holds the character. *)
Lemma rfind_from_last c s :
  forall i found k,
    (found < i)%Z ->
    String.get k s = Some c ->
    (i + Z.of_nat k <= rfind_from c s i found)%Z.
Proof.
  induction s as [| x s IH]; intros i found k Hlt Hg; [discriminate |].
  simpl. destruct k as [| k].
  - simpl in Hg. injection Hg as ->. rewrite Ascii.eqb_refl.
    pose proof (rfind_from_lower c s (i + 1)%Z i ltac:(lia)). lia.
  - simpl in Hg.
    pose proof (IH (i + 1)%Z (if Ascii.eqb x c then i else found) k
                  ltac:(destruct (Ascii.eqb x c); lia) Hg).
    lia.
Qed.

End StrFacts.

(** What [splitext] returns: the two parts make up the path, the second is
    empty or begins with the dot, and it holds no separator. *)
Lemma splitext_parts p :
  p = (fst (PosixPath.splitext p) ++ snd (PosixPath.splitext p))%string
  /\ (snd (PosixPath.splitext p) = EmptyString
      \/ exists rest, snd (PosixPath.splitext p) = String "."%char rest)
  /\ forall j, String.get j (snd (PosixPath.splitext p)) <> Some "/"%char.
Proof.
  assert (Hwhole : p = (p ++ EmptyString)%string
                   /\ (EmptyString = EmptyString
                       \/ exists rest, EmptyString = String "."%char rest)
                   /\ forall j, String.get j EmptyString <> Some "/"%char).
  { rewrite append_empty_r. repeat split; [left; reflexivity |].
    intros j. destruct j; discriminate. }
  unfold PosixPath.splitext.
  destruct (Str.rfind PosixPath.extsep p >? Str.rfind PosixPath.sep p)%Z
    eqn:Hgt; [| exact Hwhole].
  destruct (PosixPath.meets_non_dot p _ _); [| exact Hwhole].
  cbn [fst snd]. apply Z.gtb_lt in Hgt. unfold Str.rfind in *.
  pose proof (StrFacts.rfind_from_lower PosixPath.sep p 0 (-1) ltac:(lia))
    as Hsep.
  destruct (StrFacts.rfind_from_hit PosixPath.extsep p 0 (-1))
    as [Hnone | (k & Hk & Hg)]; [lia |].
  rewrite Hk in *. replace (Z.to_nat (0 + Z.of_nat k)) with k by lia.
  split; [symmetry; apply StrFacts.take_drop |]. split.
  - right. apply StrFacts.drop_get. exact Hg.
  - intros j Hj. rewrite StrFacts.get_drop in Hj.
    pose proof (StrFacts.rfind_from_last PosixPath.sep p 0 (-1) (k + j)
                  ltac:(lia) Hj).
    lia.
Qed.

Module SplitFacts.
Import Str.

Lemma rfind_from_app c a :
  forall b i found,
    rfind_from c (a ++ b)%string i found
    = rfind_from c b (i + Z.of_nat (String.length a))
        (rfind_from c a i found).
Proof.
  induction a as [| x a IH]; intros b i found.
  - cbn [append String.length rfind_from]. f_equal. lia.
  - cbn [append String.length rfind_from]. rewrite IH. f_equal. lia.
Qed.

Lemma rfind_from_absent c s :
  (forall j, String.get j s <> Some c) ->
  forall i found, rfind_from c s i found = found.
Proof.
  induction s as [| x s IH]; intros Hno i found; [reflexivity |].
  cbn [rfind_from]. destruct (Ascii.eqb_spec x c) as [-> | _].
  - exfalso. apply (Hno 0%nat). reflexivity.
  - apply IH. intros j. apply (Hno (S j)).
Qed.

Lemma get_app_l a b :
  forall k c, String.get k a = Some c -> String.get k (a ++ b) = Some c.
Proof.
  induction a as [| x a IH]; intros k c Hg; [destruct k; discriminate |].
  destruct k as [| k]; [exact Hg | apply IH; exact Hg].
Qed.

Lemma get_lt s :
  forall k c, String.get k s = Some c -> (k < String.length s)%nat.
Proof.
  induction s as [| x s IH]; intros k c Hg; [destruct k; discriminate |].
  destruct k as [| k]; cbn [String.length]; [lia |].
  pose proof (IH k c Hg). lia.
Qed.

Lemma take_app a b : take (String.length a) (a ++ b) = a.
Proof. induction a as [| x a IH]; simpl; [destruct b | rewrite IH]; reflexivity. Qed.

Lemma drop_app a b : drop (String.length a) (a ++ b) = b.
Proof. induction a as [| x a IH]; simpl; [destruct b; reflexivity | exact IH]. Qed.

Lemma meets_non_dot_found p :
  forall n i k c,
    (i <= k < i + n)%nat ->
    String.get k p = Some c ->
    c <> PosixPath.extsep ->
    PosixPath.meets_non_dot p i n = true.
Proof.
  induction n as [| n IH]; intros i k c Hrange Hg Hc; [lia |].
  cbn [PosixPath.meets_non_dot].
  destruct (String.get i p) as [x |] eqn:Hgi; [| reflexivity].
  destruct (Ascii.eqb_spec x PosixPath.extsep) as [-> | _]; [| reflexivity].
  apply (IH (S i) k c); try assumption.
  assert (k <> i) by (intros ->; rewrite Hgi in Hg; congruence).
  lia.
Qed.

(** [splitext] of a path whose file name has an extension. *)
Lemma splitext_of_name_with_extension a b c k :
  String.get k a = Some c ->
  c <> "."%char ->
  (rfind "/"%char a < Z.of_nat k)%Z ->
  (forall j, String.get j b <> Some "."%char) ->
  (forall j, String.get j b <> Some "/"%char) ->
  PosixPath.splitext (a ++ String "."%char b)
  = (a, String "."%char b).
Proof.
  intros Hk Hc Hsep Hdot Hslash.
  pose proof (get_lt a k c Hk) as Hlt.
  pose proof (StrFacts.rfind_from_lower "/"%char a 0 (-1) ltac:(lia)) as Hlow.
  unfold rfind in Hsep.
  assert (Hd : rfind PosixPath.extsep (a ++ String "."%char b)
               = Z.of_nat (String.length a)).
  { unfold rfind, PosixPath.extsep. rewrite rfind_from_app.
    cbn [rfind_from]. rewrite Ascii.eqb_refl.
    rewrite (rfind_from_absent _ b Hdot). lia. }
  assert (Hs : rfind PosixPath.sep (a ++ String "."%char b)
               = rfind_from "/"%char a 0 (-1)).
  { unfold rfind, PosixPath.sep. rewrite rfind_from_app.
    cbn [rfind_from].
    replace (Ascii.eqb "."%char "/"%char) with false by reflexivity.
    apply (rfind_from_absent _ b Hslash). }
  unfold PosixPath.splitext. rewrite Hd, Hs.
  replace (Z.of_nat (String.length a) >? rfind_from "/"%char a 0 (-1))%Z
    with true by (symmetry; apply Z.gtb_lt; lia).
  rewrite (meets_non_dot_found _ _ _ k c);
    [ | lia | apply get_app_l; exact Hk | exact Hc ].
  rewrite Nat2Z.id, take_app, drop_app. reflexivity.
Qed.

End SplitFacts.

Section Names.
Context {H : Host}.

(** X10. For an input path [a.b], where [b] holds no dot and no [/] and
    the file name at the end of [a] (what follows its last [/]) holds a
    character other than the dot, Unscrambler is started as [dotnet
    <executable> <input path>] with a newline on its standard input and
    expects its artifact at [a_unscrambled.b]: the suffix is put in front
    of the last extension of the file name. *)
Theorem unscrambler_suffix_goes_before_the_extension a b c k :
  String.get k a = Some c ->
  c <> "."%char ->
  (Str.rfind "/"%char a < Z.of_nat k)%Z ->
  (forall j, String.get j b <> Some "."%char) ->
  (forall j, String.get j b <> Some "/"%char) ->
  deobfuscate UnscramblerDeobfuscator (a ++ "." ++ b)%string
  = _deobfuscate
      ["dotnet"; _get_path_to_cmd UnscramblerDeobfuscator;
       (a ++ "." ++ b)%string]
      (a ++ "_unscrambled" ++ "." ++ b)%string
      (Some (String Re.newline EmptyString)).
Proof.
  intros Hk Hc Hsep Hdot Hslash.
  unfold deobfuscate. cbn [invocation UnscramblerDeobfuscator].
  change ("." ++ b)%string with (String "."%char b).
  rewrite (SplitFacts.splitext_of_name_with_extension a b c k
             Hk Hc Hsep Hdot Hslash).
  reflexivity.
Qed.

(** X11. For each adapter of the table and every input path, the expected
    artifact has a longer name than the input: it is never the input file
    itself, so the test that the artifact exists cannot be met by the
    file that the adapter was given. *)
Theorem expected_artifact_is_never_the_input :
  Forall
    (fun deob =>
       forall in_file_path,
         (String.length in_file_path
          < String.length (expected_for deob in_file_path))%nat
         /\ expected_for deob in_file_path <> in_file_path)
    AVAILABLE_DEOBFUSCATORS.
Proof.
  assert (Hlonger : forall a b : string,
            (String.length a < String.length b)%nat ->
            (String.length a < String.length b)%nat /\ b <> a).
  { intros a b Hlt. split; [exact Hlt |]. intros ->. lia. }
  unfold AVAILABLE_DEOBFUSCATORS.
  apply Forall_cons; [| apply Forall_cons; [| apply Forall_cons;
                                                [| apply Forall_nil]]];
    intros p; apply Hlonger; unfold expected_for.
  - cbn [invocation UnscramblerDeobfuscator].
    destruct (splitext_parts p) as (Hparts & _).
    destruct (PosixPath.splitext p) as [root ext]. cbn [fst snd] in Hparts.
    cbn [expected_out_file_loc]. rewrite Hparts at 1.
    rewrite !StrFacts.length_app. simpl. lia.
  - cbn [invocation expected_out_file_loc
         ConfuserExStaticStringDecryptorDeobfuscator].
    rewrite StrFacts.length_app. simpl. lia.
  - cbn [invocation expected_out_file_loc De4dotCexDeobfuscator].
    rewrite StrFacts.length_app. simpl. lia.
Qed.

End Names.

(* ================================================================== *)
(** ** The entry point: precheck, scratch copy, cleanup *)

Section EntryPoint.
Context {H : Host} {R : Regex}.

Lemma precheck_result in_file_path r :
  precheck in_file_path r
  = (match pefile_PE in_file_path (world r) with
     | Py.Return data_directory =>
         if ((List.length data_directory <? 15)%nat
             || (nth 14 data_directory 0 =? 0)%Z)%bool
         then Py.Return (Some (OptOut "Not a .NET assembly"))
         else Py.Return None
     | Py.Raise e =>
         if Py.is_PEFormatError e
         then Py.Return (Some (ErrorException "Error while parsing PE"))
         else Py.Raise e
     end, r).
Proof.
  destruct r as [w cs].
  unfold precheck, Py.try_except, Py.bind, in_world, Py.reading.
  cbn [world calls].
  destruct (pefile_PE in_file_path w) as [dd | e].
  - destruct ((List.length dd <? 15)%nat || (nth 14 dd 0 =? 0)%Z)%bool;
      reflexivity.
  - destruct e; reflexivity.
Qed.

Lemma conclude_calls l r : calls (snd (conclude l r)) = calls r.
Proof.
  unfold conclude.
  destruct (0 <? List.length (successful_deobs l))%nat; [| reflexivity].
  unfold Py.bind, in_world, Py.reading.
  destruct (open_rb (newest_file_path l) (world r)); reflexivity.
Qed.

(** [execute] once the precheck has let the file through. *)
Lemma execute_after_precheck cfg in_file_path r data_directory :
  pefile_PE in_file_path (world r) = Py.Return data_directory ->
  (15 <= List.length data_directory)%nat ->
  nth 14 data_directory 0%Z <> 0%Z ->
  execute cfg in_file_path r
  = match shutil_copy in_file_path (scratch_path in_file_path (world r))
            (snd (mkdtemp (world r))) with
    | (Py.Raise e, w) =>
        (Py.Raise e,
         {| world := rmtree (fst (mkdtemp (world r))) w; calls := calls r |})
    | (Py.Return _, w) =>
        let (a, r') :=
          run_deobfuscators AVAILABLE_DEOBFUSCATORS cfg
            (scratch_path in_file_path (world r))
            {| world := w; calls := calls r |} in
        (a, {| world := rmtree (fst (mkdtemp (world r))) (world r');
               calls := calls r' |})
    end.
Proof.
  intros Hpe Hlen Hnz. unfold execute, Py.bind.
  rewrite precheck_result, Hpe.
  apply Nat.ltb_ge in Hlen. apply Z.eqb_neq in Hnz. rewrite Hlen, Hnz.
  cbn [orb]. unfold with_temporary_directory, scratch_path.
  destruct (mkdtemp (world r)) as [cur_dir w0]. cbn [fst snd].
  unfold in_world at 1. cbn [world calls].
  destruct (shutil_copy in_file_path
              (PosixPath.join cur_dir [PosixPath.basename in_file_path]) w0)
    as [[u | e] w1]; reflexivity.
Qed.

(** X12. When the PE parser raises, [execute] makes no temporary
    directory, copies nothing and calls no adapter: a [PEFormatError]
    becomes the error state [Error while parsing PE], any other exception
    leaves [execute] as it is. *)
Theorem unparsable_input_touches_nothing cfg in_file_path r e :
  pefile_PE in_file_path (world r) = Py.Raise e ->
  execute cfg in_file_path r
  = (if Py.is_PEFormatError e
     then Py.Return (ErrorException "Error while parsing PE")
     else Py.Raise e, r).
Proof.
  intros Hpe. unfold execute, Py.bind. rewrite precheck_result, Hpe.
  destruct (Py.is_PEFormatError e); reflexivity.
Qed.

(** X13. A PE image whose data directory has fewer than 15 entries, or
    whose entry 14 (the .NET metadata) has a zero address, opts out as
    [Not a .NET assembly] whatever is configured, without a temporary
    directory, a copy or a call of an adapter. *)
Theorem native_image_opts_out cfg in_file_path r data_directory :
  pefile_PE in_file_path (world r) = Py.Return data_directory ->
  (List.length data_directory < 15)%nat \/ nth 14 data_directory 0%Z = 0%Z ->
  execute cfg in_file_path r = (Py.Return (OptOut "Not a .NET assembly"), r).
Proof.
  intros Hpe Hnot. unfold execute, Py.bind. rewrite precheck_result, Hpe.
  assert (Hb : ((List.length data_directory <? 15)%nat
                || (nth 14 data_directory 0 =? 0)%Z)%bool = true).
  { apply orb_true_iff. destruct Hnot as [Hlt | Hz];
      [left; apply Nat.ltb_lt; exact Hlt | right; apply Z.eqb_eq; exact Hz]. }
  rewrite Hb. reflexivity.
Qed.

(** X14. When the scratch copy cannot be made, the exception of the copy
    leaves [execute], no adapter is called, and the temporary directory is
    removed all the same. *)
Theorem failed_copy_runs_nothing cfg in_file_path r data_directory e w :
  pefile_PE in_file_path (world r) = Py.Return data_directory ->
  (15 <= List.length data_directory)%nat ->
  nth 14 data_directory 0%Z <> 0%Z ->
  shutil_copy in_file_path (scratch_path in_file_path (world r))
    (snd (mkdtemp (world r))) = (Py.Raise e, w) ->
  execute cfg in_file_path r
  = (Py.Raise e,
     {| world := rmtree (fst (mkdtemp (world r))) w; calls := calls r |}).
Proof.
  intros Hpe Hlen Hnz Hcopy.
  rewrite (execute_after_precheck _ _ _ _ Hpe Hlen Hnz), Hcopy. reflexivity.
Qed.

(** X15. Once the precheck has let the file through, the first adapter
    called receives the path at which the copy was made, the temporary
    directory joined with the base name of the input, and each later one
    the most recent artifact or that path.  Whether [execute] then returns
    or raises, the last thing done to the world is the removal of the
    temporary directory. *)
Theorem adapters_work_on_a_scratch_copy cfg in_file_path r data_directory :
  pefile_PE in_file_path (world r) = Py.Return data_directory ->
  (15 <= List.length data_directory)%nat ->
  nth 14 data_directory 0%Z <> 0%Z ->
  exists cs w,
    calls (snd (execute cfg in_file_path r)) = calls r ++ cs
    /\ chained (scratch_path in_file_path (world r)) cs
    /\ world (snd (execute cfg in_file_path r))
       = rmtree (fst (mkdtemp (world r))) w.
Proof.
  intros Hpe Hlen Hnz.
  rewrite (execute_after_precheck _ _ _ _ Hpe Hlen Hnz).
  destruct (shutil_copy in_file_path (scratch_path in_file_path (world r))
              (snd (mkdtemp (world r)))) as [[u | e] w1].
  - unfold run_deobfuscators, Py.bind.
    destruct (for_deob_in_history AVAILABLE_DEOBFUSCATORS cfg
                (initial_locals (scratch_path in_file_path (world r)))
                {| world := w1; calls := calls r |})
      as (cs & Hcalls & Hch & _).
    destruct (for_deob_in AVAILABLE_DEOBFUSCATORS cfg
                (initial_locals (scratch_path in_file_path (world r)))
                {| world := w1; calls := calls r |}) as [[l | e] r1].
    + pose proof (conclude_calls l r1) as Hc.
      destruct (conclude l r1) as [a r2]. cbn [fst snd world calls] in *.
      exists cs, (world r2). rewrite Hc, Hcalls. auto.
    + cbn [fst snd world calls] in *. exists cs, (world r1). auto.
  - exists [], w1. cbn [snd world calls]. rewrite app_nil_r.
    repeat split. apply chained_nil.
Qed.

End EntryPoint.

(* ================================================================== *)
(** ** The further properties on concrete runs *)

Module MoreRuns.
Import Scenario Cases MoreCases.

Lemma unexpected_exception_witness :
  Py.is_OSError Py.UnicodeDecodeError = false
  /\ @for_deob_in garbled_host AVAILABLE_DEOBFUSCATORS default_deobfuscators
       (initial_locals "/tmp/run/sample.exe")
       (@start garbled_host ["/tmp/run/sample.exe"%string])
     = (Py.Raise Py.UnicodeDecodeError,
        @after_call garbled_host
          (@start garbled_host ["/tmp/run/sample.exe"%string])
          ["/tmp/run/sample.exe"%string]
          (record_call UnscramblerDeobfuscator
             (initial_locals "/tmp/run/sample.exe")
             (Py.Raise Py.UnicodeDecodeError))).
Proof.
  split; [reflexivity |].
  apply (@unexpected_exception_stops_the_run garbled_host
           default_deobfuscators UnscramblerDeobfuscator
           [ConfuserExStaticStringDecryptorDeobfuscator; De4dotCexDeobfuscator]
           (initial_locals "/tmp/run/sample.exe")
           (@start garbled_host ["/tmp/run/sample.exe"%string])
           Py.UnicodeDecodeError ["/tmp/run/sample.exe"%string]);
    reflexivity.
Defined.

Lemma same_keys_witness :
  same_selection AVAILABLE_DEOBFUSCATORS reversed_cfg padded_cfg
  /\ @execute rejecting_host fragment_regex reversed_cfg "/data/sample.exe"
       (@start rejecting_host [])
     = @execute rejecting_host fragment_regex padded_cfg "/data/sample.exe"
         (@start rejecting_host []).
Proof.
  assert (Hsame : same_selection AVAILABLE_DEOBFUSCATORS reversed_cfg
                    padded_cfg).
  { intros deob [<- | [<- | [<- | []]]]; reflexivity. }
  split; [exact Hsame |].
  apply (@only_membership_of_keys_matters rejecting_host fragment_regex
           reversed_cfg padded_cfg "/data/sample.exe"
           (@start rejecting_host []) Hsame).
Defined.

Lemma diagnosed_exit_witness :
  Re.search
    "Format of the executable \(\.exe\) or library \(\.dll\) is invalid\."
    not_dotnet_text = true
  /\ exists k,
       fst (@run_deobfuscators rejecting_host fragment_regex
              [De4dotCexDeobfuscator] [key De4dotCexDeobfuscator]
              "/tmp/run/sample.exe"
              (@start rejecting_host ["/tmp/run/sample.exe"%string]))
       = Py.Return (outcome_of_error_type (Some k)).
Proof.
  split; [reflexivity |].
  eapply (@diagnosed_exit_is_classified rejecting_host De4dotCexDeobfuscator
            "/tmp/run/sample.exe"
            (@start rejecting_host ["/tmp/run/sample.exe"%string])
            {| returncode := 1; stdout := EmptyString;
               stderr := not_dotnet_text |}
            ["/tmp/run/sample.exe"%string]
            {| regex_pattern :=
                 "Format of the executable \(\.exe\) or library \(\.dll\) is invalid\.";
               fail_type := NotValidDotnetFile |});
    [ reflexivity | discriminate | left; reflexivity | reflexivity
    | reflexivity | reflexivity | left; reflexivity ].
Defined.

Lemma unlaunchable_tools_witness :
  forallb (@undescribed fragment_regex) AVAILABLE_DEOBFUSCATORS = true
  /\ fst (@run_deobfuscators bare_host fragment_regex
            AVAILABLE_DEOBFUSCATORS default_deobfuscators
            "/tmp/run/sample.exe"
            (@start bare_host ["/tmp/run/sample.exe"%string]))
     = Py.Return
         (CompletedEmpty "no-deobfuscation-processed"
            "Could not run any of the deobfuscators.").
Proof.
  split; [reflexivity |].
  apply (@unlaunchable_tools_give_the_generic_outcome bare_host
           fragment_regex AVAILABLE_DEOBFUSCATORS default_deobfuscators
           "/tmp/run/sample.exe"
           (@start bare_host ["/tmp/run/sample.exe"%string])).
  - intros args input w. exists Py.FileNotFoundError, w.
    split; reflexivity.
  - reflexivity.
Defined.

Lemma unparsable_input_witness :
  @execute unparsable_host fragment_regex default_deobfuscators
    "/data/sample.bin" (@start unparsable_host [])
  = (Py.Return (ErrorException "Error while parsing PE"),
     @start unparsable_host []).
Proof.
  apply (@unparsable_input_touches_nothing unparsable_host fragment_regex
           default_deobfuscators "/data/sample.bin"
           (@start unparsable_host []) Py.PEFormatError).
  reflexivity.
Defined.

Lemma native_image_witness :
  @execute native_host fragment_regex default_deobfuscators
    "/data/native.exe" (@start native_host [])
  = (Py.Return (OptOut "Not a .NET assembly"), @start native_host []).
Proof.
  apply (@native_image_opts_out native_host fragment_regex
           default_deobfuscators "/data/native.exe" (@start native_host [])
           (repeat 0%Z 16)).
  - reflexivity.
  - right. reflexivity.
Defined.

Lemma failed_copy_witness :
  @execute read_only_host fragment_regex default_deobfuscators
    "/data/sample.exe" (@start read_only_host [])
  = (Py.Raise Py.PermissionError, @start read_only_host []).
Proof.
  apply (@failed_copy_runs_nothing read_only_host fragment_regex
           default_deobfuscators "/data/sample.exe"
           (@start read_only_host []) (repeat 0%Z 14 ++ [8192%Z; 0%Z])
           Py.PermissionError []).
  - reflexivity.
  - simpl. lia.
  - discriminate.
  - reflexivity.
Defined.

Lemma scratch_copy_witness :
  @scratch_path chaining_host "/data/sample.exe" [] = "/tmp/run/sample.exe"%string
  /\ exists cs w,
       calls
         (snd (@execute chaining_host fragment_regex default_deobfuscators
                 "/data/sample.exe" (@start chaining_host [])))
       = calls (@start chaining_host []) ++ cs
       /\ chained (@scratch_path chaining_host "/data/sample.exe" []) cs
       /\ world
            (snd (@execute chaining_host fragment_regex default_deobfuscators
                    "/data/sample.exe" (@start chaining_host [])))
          = @rmtree chaining_host "/tmp/run" w.
Proof.
  split; [reflexivity |].
  apply (@adapters_work_on_a_scratch_copy chaining_host fragment_regex
           default_deobfuscators "/data/sample.exe" (@start chaining_host [])
           (repeat 0%Z 14 ++ [8192%Z; 0%Z])).
  - reflexivity.
  - simpl. lia.
  - discriminate.
Defined.

Lemma unscrambler_suffix_witness :
  String.get 11 "/tmp/run.d/sample" = Some "s"%char
  /\ @deobfuscate chaining_host UnscramblerDeobfuscator
       "/tmp/run.d/sample.exe"
     = @_deobfuscate chaining_host
         ["dotnet"; "/opt/deob/bin/dotnet/Unscrambler/Unscrambler.dll";
          "/tmp/run.d/sample.exe"]%string
         "/tmp/run.d/sample_unscrambled.exe"
         (Some (String Re.newline EmptyString)).
Proof.
  split; [reflexivity |].
  apply (@unscrambler_suffix_goes_before_the_extension chaining_host
           "/tmp/run.d/sample" "exe" "s"%char 11).
  - reflexivity.
  - discriminate.
  - reflexivity.
  - intros [| [| [| j]]]; discriminate.
  - intros [| [| [| j]]]; discriminate.
Defined.

End MoreRuns.

(* ================================================================== *)
(** ** Every result of an invocation *)

Section Results.
Context {H : Host}.

Lemma handled_results e w :
  fst (handled e w) = Py.Return (None, Some "OSError occured while deobfuscating.")
  \/ fst (handled e w) = Py.Return (None, Some "Timed out while deobfuscating.")
  \/ (fst (handled e w) = Py.Raise e
      /\ Py.is_OSError e = false /\ Py.is_TimeoutExpired e = false).
Proof.
  unfold handled.
  destruct (Py.is_OSError e); [left; reflexivity |].
  destruct (Py.is_TimeoutExpired e); [right; left; reflexivity |].
  right; right. auto.
Qed.

(** X16. An invocation has five results and no other: the expected path
    with no error; no path with the text of the non-zero exit, which holds
    what the process wrote to its standard error and output; no path with
    the text [OSError occured while deobfuscating.]; no path with the text
    [Timed out while deobfuscating.]; or an exception that is neither an
    [OSError] nor a [TimeoutExpired].  A returned result never has both
    sides or neither. *)
Theorem results_of_an_invocation args expected input w :
  fst (_deobfuscate args expected input w) = Py.Return (Some expected, None)
  \/ (exists res,
        fst (subprocess_run args input 60 w) = Py.Return res
        /\ fst (_deobfuscate args expected input w)
           = Py.Return (None, Some (nonzero_exit_message res)))
  \/ fst (_deobfuscate args expected input w)
     = Py.Return (None, Some "OSError occured while deobfuscating.")
  \/ fst (_deobfuscate args expected input w)
     = Py.Return (None, Some "Timed out while deobfuscating.")
  \/ (exists e,
        fst (_deobfuscate args expected input w) = Py.Raise e
        /\ Py.is_OSError e = false /\ Py.is_TimeoutExpired e = false).
Proof.
  destruct (subprocess_run args input 60 w) as [[res | e] w1] eqn:Hrun.
  - destruct (Z.eq_dec (returncode res) 0) as [Hz | Hnz].
    + destruct (os_path_exists expected w1) eqn:Hex.
      * left. rewrite (_deobfuscate_produced _ _ _ _ _ _ Hrun Hz Hex).
        reflexivity.
      * rewrite (_deobfuscate_missing _ _ _ _ _ _ Hrun Hz Hex).
        destruct (os_listdir (PosixPath.basename expected) w1) as [names | e].
        -- do 4 right. exists Py.TypeError. auto.
        -- destruct (handled_results e w1) as [Hh | [Hh | Hh]];
             [ do 2 right; left; exact Hh
             | do 3 right; left; exact Hh
             | do 4 right; exists e; exact Hh ].
    + right; left. exists res. split; [reflexivity |].
      rewrite (_deobfuscate_nonzero _ _ _ _ _ _ Hrun Hnz). reflexivity.
  - rewrite (_deobfuscate_run_raises _ expected _ _ _ _ Hrun).
    destruct (handled_results e w1) as [Hh | [Hh | Hh]];
      [ do 2 right; left; exact Hh
      | do 3 right; left; exact Hh
      | do 4 right; exists e; exact Hh ].
Qed.

End Results.
